(** * envcreate: choosing and running an environment-creation mechanism

    A shallow embedding of [src/envcreate.py].  The program is a decision
    tree over what the running interpreter offers, followed by calls into
    the [venv] builder or into subprocesses.  Every function of the module
    becomes a function from the runtime it runs in to a _run_: the list of
    observable events it performed, in order, and the way it ended (normal
    return, raised exception, or [sys.exit]). *)

From Stdlib Require Import String Ascii List ZArith Bool Lia.
Import ListNotations.
Local Open Scope string_scope.
Local Open Scope list_scope.

(** ** Python values that travel through the module *)

(** Arguments such as [python], [prompt] and [virtualenv_py] are either
    [None] or a string; the keyword arguments handed to the builder also
    carry booleans. *)
Inductive pyval : Type :=
| PyNone
| PyBool (b : bool)
| PyStr (s : string).

Definition pyval_eqb (a b : pyval) : bool :=
  match a, b with
  | PyNone, PyNone => true
  | PyBool x, PyBool y => Bool.eqb x y
  | PyStr x, PyStr y => String.eqb x y
  | _, _ => false
  end.

(** Python truth value: [None], [False] and the empty string are falsy. *)
Definition truthy (v : pyval) : bool :=
  match v with
  | PyNone => false
  | PyBool b => b
  | PyStr s => negb (String.eqb s "")
  end.

(** An optional string argument ([None] or a [str]) as a Python value. *)
Definition of_opt (o : option string) : pyval :=
  match o with
  | None => PyNone
  | Some s => PyStr s
  end.

(** [s.endswith(suffix)] and [s[:k]] on strings. *)
Definition endswith (s suffix : string) : bool :=
  let n := String.length s in
  let m := String.length suffix in
  Nat.leb m n && String.eqb (substring (n - m) m s) suffix.

Definition slice_to (k : nat) (s : string) : string := substring 0 k s.

Definition nl : string := String (ascii_of_nat 10) EmptyString.

(** ** Exceptions, events and runs *)

Inductive exn : Type :=
| EnvironmentError (msg : string)          (* raised by the module itself *)
| CalledProcessError (returncode : Z) (cmd : list string)
                                            (* subprocess.check_call, non-zero exit *)
| OSError                                   (* the child program could not be started *)
| TypeError                                 (* a non-string in an argument vector *)
| NameError (name : string)                 (* a module-level name that was never bound *)
| BuilderError (msg : string).              (* failure inside the venv library *)

(** The three places of the module that start a child process. *)
Inductive call_site : Type :=
| UpgradeStep        (* _EnvBuilder.post_setup *)
| ExternalTool       (* create_virtualenv *)
| SelfDelegation.    (* _create_with_python *)

(** Steps of the library's builder that the module does not override. *)
Inductive builder_step : Type :=
| EnsureDirectories
| CreateConfiguration
| SetupPython
| SetupPip
| SetupScripts.

(** The attributes of a builder object, as the constructor stores them. *)
Record builder : Type := mkBuilder {
  b_system_site_packages : pyval;
  b_clear : pyval;
  b_symlinks : pyval;
  b_upgrade : pyval;
  b_with_pip : pyval;
  b_prompt : pyval
}.

Inductive event : Type :=
| Stdout (text : string)
| Spawn (site : call_site) (argv : list string) (returncode : Z)
| Build (step : builder_step) (b : builder) (env_dir : string).

Inductive outcome (A : Type) : Type :=
| Returned (a : A)
| Raised (e : exn)
| Exited (code : Z).     (* sys.exit(code) *)

Arguments Returned {A} a.
Arguments Raised {A} e.
Arguments Exited {A} code.

Definition run (A : Type) : Type := (list event * outcome A)%type.

Definition trace {A} (r : run A) : list event := fst r.
Definition result {A} (r : run A) : outcome A := snd r.

Definition ret {A} (a : A) : run A := ([], Returned a).
Definition raise {A} (e : exn) : run A := ([], Raised e).
Definition sys_exit {A} (code : Z) : run A := ([], Exited code).
Definition emit (e : event) : run unit := ([e], Returned tt).

Definition bind {A B} (m : run A) (k : A -> run B) : run B :=
  match m with
  | (t, Returned a) => let (t', o) := k a in (t ++ t', o)
  | (t, Raised e) => (t, Raised e)
  | (t, Exited c) => (t, Exited c)
  end.

Declare Scope run_scope.
Delimit Scope run_scope with run.
Notation "x <- m ;; k" := (bind m (fun x => k))
  (at level 100, m at next level, right associativity) : run_scope.
Notation "m ;;; k" := (bind m (fun _ => k))
  (at level 100, right associativity) : run_scope.
Local Open Scope run_scope.

(** ** The runtime the module runs in *)

(** What the code probes or calls outside itself.  [run_process argv] is the
    operating system's answer to starting [argv] and waiting for it: the
    child's return code, or [None] when the program cannot be started.
    [venv_step s] is the error message, if any, with which step [s] of the
    library's builder fails; [env_exe_of] and [env_name_of] are the interpreter path and the
    name the library derives from the destination directory. *)
Record runtime : Type := mkRuntime {
  venv_available : bool;          (* [import venv] succeeded *)
  ensurepip_available : bool;     (* [import ensurepip] succeeds *)
  has_real_prefix : bool;         (* [sys.real_prefix] exists *)
  version_info : nat * nat;       (* (major, minor) of sys.version_info *)
  os_name : string;               (* os.name *)
  sys_executable : string;        (* sys.executable *)
  dunder_file : string;           (* __file__ of the module *)
  abspath : string -> string;     (* os.path.abspath *)
  run_process : list string -> option Z;
  venv_step : builder_step -> option string;
  env_exe_of : string -> string;
  env_name_of : string -> string
}.

(** [sys.version_info < (major, minor)], the comparison of tuples. *)
Definition version_lt (v : nat * nat) (major minor : nat) : bool :=
  Nat.ltb (fst v) major || (Nat.eqb (fst v) major && Nat.ltb (snd v) minor).

Definition version_ge (v : nat * nat) (major minor : nat) : bool :=
  negb (version_lt v major minor).

(** [print(a, b, ...)]: the arguments separated by spaces, then a newline. *)
Definition print (text : string) : run unit := emit (Stdout (text ++ nl)).

(** [print(text, end='', flush=True)]. *)
Definition print_no_newline (text : string) : run unit := emit (Stdout text).

(** ** The subprocess module *)

(** The argument vector of a child must consist of strings. *)
Fixpoint argv_of (cmd : list pyval) : option (list string) :=
  match cmd with
  | [] => Some []
  | PyStr s :: rest =>
      match argv_of rest with
      | Some l => Some (s :: l)
      | None => None
      end
  | _ :: _ => None
  end.

(** [subprocess.call(cmd)]: [TypeError] for a malformed vector, [OSError]
    when the program cannot be started, otherwise the child runs to its end
    and its return code is the value. *)
Definition subprocess_call (w : runtime) (site : call_site) (cmd : list pyval)
  : run Z :=
  match argv_of cmd with
  | None => raise TypeError
  | Some argv =>
      match run_process w argv with
      | None => raise OSError
      | Some rc => emit (Spawn site argv rc) ;;; ret rc
      end
  end.

(** [subprocess.check_call(cmd)]: as [call], and a non-zero return code
    raises [CalledProcessError]. *)
Definition subprocess_check_call (w : runtime) (site : call_site)
    (cmd : list pyval) : run unit :=
  rc <- subprocess_call w site cmd ;;
  if Z.eqb rc 0 then ret tt
  else raise (CalledProcessError rc (match argv_of cmd with
                                     | Some argv => argv
                                     | None => []
                                     end)).

(** ** The builder class *)

(** Keyword arguments, [**kwargs], as the dictionary the callee receives. *)
Definition kwargs : Type := list (string * pyval).

Fixpoint kw_get (key : string) (default : pyval) (kw : kwargs) : pyval :=
  match kw with
  | [] => default
  | (k, v) :: rest => if String.eqb k key then v else kw_get key default rest
  end.

Fixpoint kw_remove (key : string) (kw : kwargs) : kwargs :=
  match kw with
  | [] => []
  | (k, v) :: rest =>
      if String.eqb k key then kw_remove key rest else (k, v) :: kw_remove key rest
  end.

(** [kwargs.pop(key, default)]: the value and the dictionary left. *)
Definition kw_pop (key : string) (default : pyval) (kw : kwargs)
  : pyval * kwargs :=
  (kw_get key default kw, kw_remove key kw).

(** [str(v)] as ['%s' % v] renders it. *)
Definition py_str (v : pyval) : string :=
  match v with
  | PyNone => "None"
  | PyBool true => "True"
  | PyBool false => "False"
  | PyStr s => s
  end.

(** The build context the library hands from hook to hook. *)
Record context : Type := mkContext {
  ctx_env_dir : string;
  ctx_env_name : string;
  ctx_env_exe : string;
  ctx_prompt : pyval
}.

(** One step of the library's builder: it fails as the runtime says, or
    it is done and observed.  A step is opaque: what the library does inside
    it is not observed, and its failure is taken to be an exception. *)
Definition library_step (w : runtime) (s : builder_step) (b : builder)
    (env_dir : string) : run unit :=
  match venv_step w s with
  | Some msg => raise (BuilderError msg)
  | None => emit (Build s b env_dir)
  end.

(** The standard library's [venv.EnvBuilder], as far as the module relies on
    it: the constructor stores its keyword arguments (each defaults to
    [False], [prompt] to [None]; [prompt] is a constructor argument from
    Python 3.6 on), and [create] calls the hooks in a fixed order.  The
    constructor is modelled on the keywords [create_venv] passes, which the
    library accepts from Python 3.4 on; its refusal of other keywords and
    its rewriting of the prompt ["."] (Python 3.9 on) are outside the
    model. *)
Module EnvBuilder.

Definition init (w : runtime) (self_prompt : pyval) (kw : kwargs) : builder :=
  {| b_system_site_packages := kw_get "system_site_packages" (PyBool false) kw;
     b_clear := kw_get "clear" (PyBool false) kw;
     b_symlinks := kw_get "symlinks" (PyBool false) kw;
     b_upgrade := kw_get "upgrade" (PyBool false) kw;
     b_with_pip := kw_get "with_pip" (PyBool false) kw;
     b_prompt := if version_ge (version_info w) 3 6
                 then kw_get "prompt" PyNone kw
                 else self_prompt |}.

Definition ensure_directories (w : runtime) (b : builder) (env_dir : string)
  : run context :=
  library_step w EnsureDirectories b env_dir ;;;
  let env_name := env_name_of w env_dir in
  let shown :=
    if version_ge (version_info w) 3 6
    then match b_prompt b with
         | PyNone => env_name
         | p => py_str p
         end
    else env_name in
  ret {| ctx_env_dir := env_dir;
         ctx_env_name := env_name;
         ctx_env_exe := env_exe_of w env_dir;
         ctx_prompt := PyStr ("(" ++ shown ++ ") ") |}.

Definition setup_python (w : runtime) (b : builder) (c : context) : run unit :=
  library_step w SetupPython b (ctx_env_dir c).

End EnvBuilder.

(** The module's own subclass (source lines 14-48).  It exists only when
    [import venv] succeeded. *)
Module _EnvBuilder.

(** [__init__(self, **kwargs)] *)
Definition init (w : runtime) (kw : kwargs) : builder :=
  if version_lt (version_info w) 3 6 then
    let (prompt, kw') := kw_pop "prompt" PyNone kw in
    EnvBuilder.init w prompt kw'
  else EnvBuilder.init w PyNone kw.

Definition ensure_directories (w : runtime) (b : builder) (env_dir : string)
  : run context :=
  c <- EnvBuilder.ensure_directories w b env_dir ;;
  if version_lt (version_info w) 3 6
     && negb (pyval_eqb (b_prompt b) PyNone)
  then ret {| ctx_env_dir := ctx_env_dir c;
              ctx_env_name := ctx_env_name c;
              ctx_env_exe := ctx_env_exe c;
              ctx_prompt := b_prompt b |}
  else ret c.

Definition setup_python (w : runtime) (b : builder) (c : context) : run unit :=
  EnvBuilder.setup_python w b c ;;;
  print ("New Python executable in" ++ " " ++ ctx_env_exe c).

Definition upgrade_cmd (c : context) : list pyval :=
  [PyStr (ctx_env_exe c); PyStr "-m"; PyStr "pip"; PyStr "install";
   PyStr "--upgrade"; PyStr "--disable-pip-version-check"; PyStr "--quiet";
   PyStr "setuptools"; PyStr "pip"; PyStr "wheel"].

Definition post_setup (w : runtime) (c : context) : run unit :=
  print_no_newline "Ensuring up-to-date setuptools, pip, and wheel..." ;;;
  returncode <- subprocess_call w UpgradeStep (upgrade_cmd c) ;;
  if Z.eqb returncode 0 then print "done"
  else
    (* If update fails, there should already be a nice error message
       from pip present. Just carry on. *)
    print "".

(** The inherited [create(env_dir)]: the library's driver, calling the
    hooks above where the subclass overrides them.  What recent versions do
    around the hooks (holding [system_site_packages] at [False] during the
    steps and writing the configuration again after [post_setup]) is
    outside the model. *)
Definition create (w : runtime) (b : builder) (env_dir : string) : run unit :=
  let env_dir := abspath w env_dir in
  c <- ensure_directories w b env_dir ;;
  library_step w CreateConfiguration b env_dir ;;;
  setup_python w b c ;;;
  (if truthy (b_with_pip b) then library_step w SetupPip b env_dir else ret tt) ;;;
  if negb (truthy (b_upgrade b)) then
    library_step w SetupScripts b env_dir ;;;
    post_setup w c
  else ret tt.

End _EnvBuilder.

(** ** The module's functions *)

(** The builder [create_venv] constructs (source lines 52-57). *)
Definition create_venv_builder (w : runtime) (system_site_packages : bool)
    (prompt : option string) : builder :=
  _EnvBuilder.init w
    [("prompt", of_opt prompt);                        (* Supported by custom builder. *)
     ("system_site_packages", PyBool system_site_packages);
     ("symlinks", PyBool (negb (String.eqb (os_name w) "nt")));
                                                       (* Copied from venv logic. *)
     ("with_pip", PyBool true)].

Definition create_venv (w : runtime) (env_dir : string)
    (system_site_packages : bool) (prompt : option string) : run unit :=
  if venv_available w then
    _EnvBuilder.create w (create_venv_builder w system_site_packages prompt)
      env_dir
  else raise (NameError "_EnvBuilder").

(** The command [create_virtualenv] assembles (source lines 64-68).  The
    destination directory is held as the text [str(env_dir)]. *)
Definition virtualenv_cmd (w : runtime) (virtualenv_py : option string)
    (env_dir : string) (system : bool) (prompt : option string) : list pyval :=
  let cmd := [PyStr (sys_executable w); of_opt virtualenv_py; PyStr env_dir] in
  let cmd := if system then cmd ++ [PyStr "--system-site-packages"] else cmd in
  let cmd := if truthy (of_opt prompt)
             then cmd ++ [PyStr "--prompt"; of_opt prompt] else cmd in
  cmd.

Definition create_virtualenv (w : runtime) (virtualenv_py : option string)
    (env_dir : string) (system : bool) (prompt : option string) : run unit :=
  if negb (truthy (of_opt virtualenv_py)) then
    raise (EnvironmentError "virtualenv.py not available")
  else
    subprocess_check_call w ExternalTool
      (virtualenv_cmd w virtualenv_py env_dir system prompt).

Definition _is_venv_usable (w : runtime) : run bool :=
  if negb (venv_available w) then
    (if version_ge (version_info w) 3 3
     then print "venv not available, falling back to virtualenv"
     else print "Using virtualenv") ;;;
    ret false
  else if negb (ensurepip_available w) then
    print "venv without ensurepip is unuseful, falling back to virtualenv" ;;;
    ret false
  else if negb (has_real_prefix w) then
    print "Using venv" ;;;
    ret true
  else
    print "venv breaks when nesting in virtualenv, falling back to virtualenv" ;;;
    ret false.

Definition _create_with_this (w : runtime) (env_dir : string) (system : bool)
    (prompt virtualenv_py : option string) : run unit :=
  usable <- _is_venv_usable w ;;
  if usable then create_venv w env_dir system prompt
  else if truthy (of_opt virtualenv_py) then
    create_virtualenv w virtualenv_py env_dir system prompt
  else
    print "virtualenv not available" ;;;
    sys_exit 1%Z.

(** The command [_create_with_python] assembles (source lines 105-112). *)
Definition delegation_cmd (w : runtime) (python : option string)
    (env_dir : string) (system : bool) (prompt virtualenv_py : option string)
  : list pyval :=
  let this_file := abspath w (dunder_file w) in
  let this_file :=
    if endswith this_file ".pyc" then slice_to 1 this_file else this_file in
  let cmd := [of_opt python; PyStr this_file; PyStr env_dir;
              PyStr "--prompt"; of_opt prompt] in
  let cmd := if system then cmd ++ [PyStr "--system"] else cmd in
  let cmd := if truthy (of_opt virtualenv_py)
             then cmd ++ [PyStr "--virtualenv.py"; of_opt virtualenv_py]
             else cmd in
  cmd.

(** Delegate everything into a subprocess. *)
Definition _create_with_python (w : runtime) (python : option string)
    (env_dir : string) (system : bool) (prompt virtualenv_py : option string)
  : run unit :=
  rc <- subprocess_call w SelfDelegation
          (delegation_cmd w python env_dir system prompt virtualenv_py) ;;
  sys_exit rc.

(** Main entry point to use this as a module. *)
Definition create (w : runtime) (python : option string) (env_dir : string)
    (system : bool) (prompt virtualenv_py : option string) : run unit :=
  if negb (truthy (of_opt python))
     || pyval_eqb (of_opt python) (PyStr (sys_executable w))
  then _create_with_this w env_dir system prompt virtualenv_py
  else _create_with_python w python env_dir system prompt virtualenv_py.

(** The options [argparse] yields for the command line of the script. *)
Record options : Type := mkOptions {
  opt_env_dir : string;
  opt_system : bool;
  opt_script : option string;
  opt_prompt : option string
}.

(** [_main], after the command line is parsed: handles the delegation from
    [_create_with_python]. *)
Definition _main (w : runtime) (opts : options) : run unit :=
  _create_with_this w (opt_env_dir opts) (opt_system opts) (opt_prompt opts)
    (opt_script opts).

(** ** Sample runtimes *)

(** A POSIX Python 3.8 with [venv] and [ensurepip], outside any virtualenv,
    where every child exits with code 0. *)
Definition posix_runtime : runtime :=
  {| venv_available := true;
     ensurepip_available := true;
     has_real_prefix := false;
     version_info := (3, 8);
     os_name := "posix";
     sys_executable := "/usr/bin/python3";
     dunder_file := "/opt/tools/envcreate.py";
     abspath := fun p => p;
     run_process := fun _ => Some 0%Z;
     venv_step := fun _ => None;
     env_exe_of := fun d => (d ++ "/bin/python")%string;
     env_name_of := fun d => d |}.

(** Record updates on runtimes. *)
Definition with_probes (w : runtime) (venv ensurepip real_prefix : bool)
  : runtime :=
  {| venv_available := venv;
     ensurepip_available := ensurepip;
     has_real_prefix := real_prefix;
     version_info := version_info w;
     os_name := os_name w;
     sys_executable := sys_executable w;
     dunder_file := dunder_file w;
     abspath := abspath w;
     run_process := run_process w;
     venv_step := venv_step w;
     env_exe_of := env_exe_of w;
     env_name_of := env_name_of w |}.

Definition with_run_process (w : runtime) (f : list string -> option Z)
  : runtime :=
  {| venv_available := venv_available w;
     ensurepip_available := ensurepip_available w;
     has_real_prefix := has_real_prefix w;
     version_info := version_info w;
     os_name := os_name w;
     sys_executable := sys_executable w;
     dunder_file := dunder_file w;
     abspath := abspath w;
     run_process := f;
     venv_step := venv_step w;
     env_exe_of := env_exe_of w;
     env_name_of := env_name_of w |}.

Definition with_dunder_file (w : runtime) (file : string) : runtime :=
  {| venv_available := venv_available w;
     ensurepip_available := ensurepip_available w;
     has_real_prefix := has_real_prefix w;
     version_info := version_info w;
     os_name := os_name w;
     sys_executable := sys_executable w;
     dunder_file := file;
     abspath := abspath w;
     run_process := run_process w;
     venv_step := venv_step w;
     env_exe_of := env_exe_of w;
     env_name_of := env_name_of w |}.

(** The runtime [w] in which every child that is started exits with [rc]. *)
Definition with_exit_code (w : runtime) (rc : Z) : runtime :=
  with_run_process w (fun _ => Some rc).

(** A Python 2.7 inside a virtualenv: no [venv], no [ensurepip],
    [sys.real_prefix] set. *)
Definition legacy_runtime : runtime :=
  {| venv_available := false;
     ensurepip_available := false;
     has_real_prefix := true;
     version_info := (2, 7);
     os_name := "posix";
     sys_executable := "/srv/ve/bin/python";
     dunder_file := "/opt/tools/envcreate.pyc";
     abspath := fun p => p;
     run_process := fun _ => None;
     venv_step := fun _ => None;
     env_exe_of := fun d => (d ++ "/bin/python")%string;
     env_name_of := fun d => d |}.

(** ** The selection procedure, as the specification words it *)

Inductive verdict : Type :=
| NoBuilder          (* 1. the built-in builder is unavailable *)
| NoInstaller        (* 2. the installer cannot be bootstrapped *)
| NestingHazard      (* 3. the sentinel attribute is present *)
| BuiltIn.           (* 4. use the built-in builder *)

(** The decision procedure of the specification, evaluated in order. *)
Definition spec_selection (builder_present installer_present sentinel : bool)
  : verdict :=
  if negb builder_present then NoBuilder
  else if negb installer_present then NoInstaller
  else if sentinel then NestingHazard
  else BuiltIn.

Definition selects_builtin (v : verdict) : bool :=
  match v with
  | BuiltIn => true
  | _ => false
  end.

(** The progress line the code prints for each verdict. *)
Definition verdict_line (version : nat * nat) (v : verdict) : string :=
  match v with
  | NoBuilder =>
      if version_ge version 3 3
      then "venv not available, falling back to virtualenv"
      else "Using virtualenv"
  | NoInstaller =>
      "venv without ensurepip is unuseful, falling back to virtualenv"
  | NestingHazard =>
      "venv breaks when nesting in virtualenv, falling back to virtualenv"
  | BuiltIn => "Using venv"
  end.

(** ** Classifying the end of a run *)

Definition returned {A} (o : outcome A) : bool :=
  match o with
  | Returned _ => true
  | _ => false
  end.

Definition exited {A} (o : outcome A) : bool :=
  match o with
  | Exited _ => true
  | _ => false
  end.

(** The error of the module: [EnvironmentError('virtualenv.py not available')]. *)
Definition configuration_error {A} (o : outcome A) : bool :=
  match o with
  | Raised (EnvironmentError _) => true
  | _ => false
  end.

(** The error of a child that ran and exited with a non-zero code. *)
Definition process_error {A} (o : outcome A) : bool :=
  match o with
  | Raised (CalledProcessError _ _) => true
  | _ => false
  end.

Definition is_self_delegation (e : event) : bool :=
  match e with
  | Spawn SelfDelegation _ _ => true
  | _ => false
  end.

(** [python] names no other interpreter: it is [None], empty, or the
    running one. *)
Definition names_this_interpreter (w : runtime) (python : option string)
  : bool :=
  match python with
  | None => true
  | Some p => String.eqb p "" || String.eqb p (sys_executable w)
  end.

(** The module file named on the command line of the child. *)
Definition delegated_file (w : runtime) : string :=
  let this_file := abspath w (dunder_file w) in
  if endswith this_file ".pyc" then slice_to 1 this_file else this_file.

(** When [python] and [prompt] are strings the delegation command is a
    proper argument vector, headed by the requested interpreter. *)
Definition delegation_argv (w : runtime) (python : string) (env_dir : string)
    (system : bool) (prompt : string) (virtualenv_py : option string)
  : list string :=
  [python; delegated_file w; env_dir; "--prompt"; prompt]
  ++ (if system then ["--system"] else [])
  ++ match virtualenv_py with
     | Some v => if String.eqb v "" then [] else ["--virtualenv.py"; v]
     | None => []
     end.

(** The external tool's command line, as the specification words it: the
    running interpreter, the tool, the destination directory, then the
    system-site-packages option when the flag is set, then the prompt option
    with its label when a non-empty label is given. *)
Definition spec_tool_argv (w : runtime) (tool env_dir : string)
    (system : bool) (prompt : option string) : list string :=
  [sys_executable w; tool; env_dir]
  ++ (if system then ["--system-site-packages"] else [])
  ++ match prompt with
     | Some label => if String.eqb label "" then [] else ["--prompt"; label]
     | None => []
     end.

(** The return code of the external tool's child: defined when a tool path
    is supplied and the child can be started. *)
Definition tool_exit_code (w : runtime) (virtualenv_py : option string)
    (env_dir : string) (system : bool) (prompt : option string) : option Z :=
  if truthy (of_opt virtualenv_py) then
    match argv_of (virtualenv_cmd w virtualenv_py env_dir system prompt) with
    | Some argv => run_process w argv
    | None => None
    end
  else None.

(** Every exception a run may end with satisfies [P]. *)
Definition raises_only {A} (P : exn -> Prop) (r : run A) : Prop :=
  match result r with
  | Raised e => P e
  | _ => True
  end.

Definition not_environment_error (e : exn) : Prop :=
  match e with
  | EnvironmentError _ => False
  | _ => True
  end.

(** The argument vector of the upgrade child for the interpreter [exe] of
    the new environment. *)
Definition upgrade_argv (exe : string) : list string :=
  [exe; "-m"; "pip"; "install"; "--upgrade"; "--disable-pip-version-check";
   "--quiet"; "setuptools"; "pip"; "wheel"].

(** The steps of the library's builder that a run completed, in order. *)
Fixpoint builds (t : list event) : list builder_step :=
  match t with
  | [] => []
  | Build s _ _ :: rest => s :: builds rest
  | _ :: rest => builds rest
  end.

(** Every builder step observed in a run was made by builder [b]. *)
Definition built_by (b : builder) (e : event) : Prop :=
  match e with
  | Build _ b' _ => b' = b
  | _ => True
  end.

(** The part of the builder's [create] that precedes [post_setup], with the
    context it hands to the hook ([None] when the hook is not called). *)
Definition build_before_post_setup (w : runtime) (b : builder)
    (env_dir : string) : run (option context) :=
  let env_dir := abspath w env_dir in
  c <- _EnvBuilder.ensure_directories w b env_dir ;;
  library_step w CreateConfiguration b env_dir ;;;
  _EnvBuilder.setup_python w b c ;;;
  (if truthy (b_with_pip b) then library_step w SetupPip b env_dir else ret tt) ;;;
  if negb (truthy (b_upgrade b)) then
    library_step w SetupScripts b env_dir ;;;
    ret (Some c)
  else ret None.

(** Calling the hook, when there is a context to call it on. *)
Definition call_post_setup (w : runtime) (oc : option context) : run unit :=
  match oc with
  | Some c => _EnvBuilder.post_setup w c
  | None => ret tt
  end.

(** The subprocess calls of the module that started a child in a run, by
    call site, in order.  Children that the library starts inside one of its
    own steps belong to that step and are not listed. *)
Fixpoint children (t : list event) : list call_site :=
  match t with
  | [] => []
  | Spawn site _ _ :: rest => site :: children rest
  | _ :: rest => children rest
  end.

(** The way a run may end: every exception satisfies [P], every exit status
    satisfies [Q]. *)
Definition ends_only {A} (P : exn -> Prop) (Q : Z -> Prop) (r : run A) : Prop :=
  match result r with
  | Returned _ => True
  | Raised e => P e
  | Exited code => Q code
  end.

(** A failure inside the library's builder, or a child that cannot start. *)
Definition build_failure (e : exn) : Prop :=
  match e with
  | BuilderError _ | OSError => True
  | _ => False
  end.

(** The failures an in-process creation can end with. *)
Definition in_process_failure (e : exn) : Prop :=
  match e with
  | BuilderError _ | OSError | CalledProcessError _ _ => True
  | _ => False
  end.

Definition no_exit (code : Z) : Prop := False.

(** The library steps of a build with the installer, in the order the driver
    takes them. *)
Definition pipeline : list builder_step :=
  [EnsureDirectories; CreateConfiguration; SetupPython; SetupPip; SetupScripts].

(** The steps of [l] the runtime completes before the first one that fails,
    and the message of that one. *)
Fixpoint completed_steps (w : runtime) (l : list builder_step)
  : list builder_step :=
  match l with
  | [] => []
  | s :: rest =>
      match venv_step w s with
      | None => s :: completed_steps w rest
      | Some _ => []
      end
  end.

Fixpoint first_failure (w : runtime) (l : list builder_step) : option string :=
  match l with
  | [] => None
  | s :: rest =>
      match venv_step w s with
      | None => first_failure w rest
      | Some msg => Some msg
      end
  end.

(** The runtime [w] on another Python version. *)
Definition with_version (w : runtime) (version : nat * nat) : runtime :=
  {| venv_available := venv_available w;
     ensurepip_available := ensurepip_available w;
     has_real_prefix := has_real_prefix w;
     version_info := version;
     os_name := os_name w;
     sys_executable := sys_executable w;
     dunder_file := dunder_file w;
     abspath := abspath w;
     run_process := run_process w;
     venv_step := venv_step w;
     env_exe_of := env_exe_of w;
     env_name_of := env_name_of w |}.

(** The three probes of the selection procedure, taken together. *)
Definition builder_usable (w : runtime) : bool :=
  venv_available w && ensurepip_available w && negb (has_real_prefix w).

(** The one call site whose child a creation may start, by the route it
    takes. *)
Definition route_site (w : runtime) (python : option string) : call_site :=
  if names_this_interpreter w python then
    if builder_usable w then UpgradeStep else ExternalTool
  else SelfDelegation.

(** What the hooks of the module may add to a build whose new interpreter
    is [exe]: the progress texts, of which one names [exe], and the upgrade
    child run by [exe].  The library's own steps are left as they are. *)
Definition hook_event (exe : string) (e : event) : Prop :=
  match e with
  | Build _ _ _ => True
  | Spawn site argv _ => site = UpgradeStep /\ argv = upgrade_argv exe
  | Stdout text =>
      text = ("New Python executable in " ++ exe ++ nl)%string
      \/ text = "Ensuring up-to-date setuptools, pip, and wheel..."
      \/ text = ("done" ++ nl)%string
      \/ text = nl
  end.

Definition is_stdout (e : event) : bool :=
  match e with
  | Stdout _ => true
  | _ => false
  end.

(** ** Laws of runs *)

Section RunLaws.

Context {A B : Type}.

Lemma bind_unfold (m : run A) (k : A -> run B) :
  bind m k =
    match result m with
    | Returned a => (trace m ++ trace (k a), result (k a))
    | Raised e => (trace m, Raised e)
    | Exited c => (trace m, Exited c)
    end.
Proof.
  destruct m as [t [a | e | c]]; simpl; try reflexivity.
  destruct (k a); reflexivity.
Qed.

Lemma bind_returned (m : run A) (k : A -> run B) (a : A) :
  result m = Returned a ->
  bind m k = (trace m ++ trace (k a), result (k a)).
Proof. intros H. rewrite bind_unfold, H. reflexivity. Qed.

Lemma trace_bind_Forall (P : event -> Prop) (m : run A) (k : A -> run B) :
  Forall P (trace m) ->
  (forall a, Forall P (trace (k a))) ->
  Forall P (trace (bind m k)).
Proof.
  intros Hm Hk. rewrite bind_unfold.
  destruct (result m); simpl; auto.
  apply Forall_app; split; auto.
Qed.

End RunLaws.

(** ** Mechanism selection *)

Lemma is_venv_usable_run (w : runtime) :
  _is_venv_usable w =
    (let v := spec_selection (venv_available w) (ensurepip_available w)
                (has_real_prefix w) in
     ([Stdout (verdict_line (version_info w) v ++ nl)],
      Returned (selects_builtin v))).
Proof.
  unfold _is_venv_usable, spec_selection.
  destruct (venv_available w); simpl.
  - destruct (ensurepip_available w); simpl.
    + destruct (has_real_prefix w); reflexivity.
    + reflexivity.
  - destruct (version_ge (version_info w) 3 3); reflexivity.
Qed.

Lemma is_venv_usable_result (w : runtime) :
  result (_is_venv_usable w) =
    Returned (venv_available w && ensurepip_available w
              && negb (has_real_prefix w)).
Proof.
  rewrite is_venv_usable_run. unfold spec_selection.
  destruct (venv_available w), (ensurepip_available w), (has_real_prefix w);
    reflexivity.
Qed.

(** C1.  The selection procedure [_is_venv_usable] takes the specification's
    decisions in the specification's order: its whole run is the progress
    line of the first check that fails (or of the built-in builder), and it
    answers [True] exactly when [venv] is there, [ensurepip] imports and
    [sys.real_prefix] is absent.  With the sentinel present the answer is
    [False] whatever the other two probes say. *)
Theorem is_venv_usable_follows_spec_order :
  forall w : runtime,
    _is_venv_usable w =
      ([Stdout (verdict_line (version_info w)
                  (spec_selection (venv_available w) (ensurepip_available w)
                     (has_real_prefix w)) ++ nl)],
       Returned (selects_builtin
                   (spec_selection (venv_available w) (ensurepip_available w)
                      (has_real_prefix w))))
    /\ result (_is_venv_usable w) =
         Returned (venv_available w && ensurepip_available w
                   && negb (has_real_prefix w))
    /\ (forall venv ensurepip : bool,
          result (_is_venv_usable (with_probes w venv ensurepip true)) =
            Returned false)
    /\ (has_real_prefix w = false
        \/ result (_is_venv_usable w) = Returned false).
Proof.
  intros w. split; [apply is_venv_usable_run|].
  split; [apply is_venv_usable_result|].
  split.
  - intros venv ensurepip. rewrite is_venv_usable_result. simpl.
    now rewrite andb_false_r.
  - rewrite is_venv_usable_result.
    destruct (has_real_prefix w); [right|left]; trivial.
    now rewrite andb_false_r.
Qed.

(** ** Argument vectors *)

Lemma argv_of_app (l1 l2 : list pyval) :
  argv_of (l1 ++ l2) =
    match argv_of l1, argv_of l2 with
    | Some a1, Some a2 => Some (a1 ++ a2)
    | _, _ => None
    end.
Proof.
  induction l1 as [| v l1 IH]; simpl.
  - destruct (argv_of l2); reflexivity.
  - destruct v; try reflexivity.
    rewrite IH. destruct (argv_of l1), (argv_of l2); reflexivity.
Qed.

Lemma argv_of_strings (l : list string) : argv_of (map PyStr l) = Some l.
Proof.
  induction l as [| s l IH]; simpl; [reflexivity | now rewrite IH].
Qed.

Lemma delegation_cmd_argv (w : runtime) (python : option string)
    (env_dir : string) (system : bool) (prompt virtualenv_py : option string) :
  argv_of (delegation_cmd w python env_dir system prompt virtualenv_py) =
    match python, prompt with
    | Some p, Some label =>
        Some (delegation_argv w p env_dir system label virtualenv_py)
    | _, _ => None
    end.
Proof.
  unfold delegation_cmd, delegation_argv, delegated_file.
  destruct python as [p|], prompt as [label|], system,
    virtualenv_py as [v|]; simpl; try reflexivity;
    try (destruct (String.eqb v ""); reflexivity).
Qed.

(** ** What a run may contain *)

Lemma subprocess_call_events (w : runtime) (site : call_site)
    (cmd : list pyval) :
  Forall (fun e => exists argv rc,
            argv_of cmd = Some argv /\ e = Spawn site argv rc)
    (trace (subprocess_call w site cmd)).
Proof.
  unfold subprocess_call.
  destruct (argv_of cmd) as [argv|]; simpl; [|constructor].
  destruct (run_process w argv) as [rc|]; simpl; [|constructor].
  constructor; [|constructor]. exists argv, rc. split; reflexivity.
Qed.

Lemma subprocess_call_not_delegating (w : runtime) (site : call_site)
    (cmd : list pyval) :
  site <> SelfDelegation ->
  Forall (fun e => is_self_delegation e = false)
    (trace (subprocess_call w site cmd)).
Proof.
  intros Hsite.
  eapply Forall_impl; [|apply subprocess_call_events].
  intros e (argv & rc & _ & ->). destruct site; simpl; congruence.
Qed.

Lemma library_step_not_delegating (w : runtime) (s : builder_step)
    (b : builder) (env_dir : string) :
  Forall (fun e => is_self_delegation e = false)
    (trace (library_step w s b env_dir)).
Proof.
  unfold library_step. destruct (venv_step w s); simpl; repeat constructor.
Qed.

Ltac not_delegating :=
  repeat first
    [ apply trace_bind_Forall
    | apply library_step_not_delegating
    | apply subprocess_call_not_delegating; discriminate
    | intro
    | match goal with
      | |- Forall _ (trace (if ?c then _ else _)) => destruct c
      end
    | solve [simpl; repeat constructor] ].

Lemma builder_create_not_delegating (w : runtime) (b : builder)
    (env_dir : string) :
  Forall (fun e => is_self_delegation e = false)
    (trace (_EnvBuilder.create w b env_dir)).
Proof.
  unfold _EnvBuilder.create, _EnvBuilder.ensure_directories,
    EnvBuilder.ensure_directories, _EnvBuilder.setup_python,
    EnvBuilder.setup_python, _EnvBuilder.post_setup.
  not_delegating.
Qed.

Lemma create_with_this_not_delegating (w : runtime) (env_dir : string)
    (system : bool) (prompt virtualenv_py : option string) :
  Forall (fun e => is_self_delegation e = false)
    (trace (_create_with_this w env_dir system prompt virtualenv_py)).
Proof.
  unfold _create_with_this. rewrite is_venv_usable_run.
  apply trace_bind_Forall; [simpl; repeat constructor|].
  intros usable. destruct usable.
  - unfold create_venv. destruct (venv_available w); [|simpl; constructor].
    apply builder_create_not_delegating.
  - unfold create_virtualenv, subprocess_check_call. not_delegating.
Qed.

Lemma create_guard (w : runtime) (python : option string) :
  negb (truthy (of_opt python))
  || pyval_eqb (of_opt python) (PyStr (sys_executable w))
  = names_this_interpreter w python.
Proof.
  destruct python as [p|]; simpl; [|reflexivity].
  now rewrite negb_involutive.
Qed.

(** ** The external tool *)

Lemma virtualenv_cmd_spec (w : runtime) (tool env_dir : string)
    (system : bool) (prompt : option string) :
  virtualenv_cmd w (Some tool) env_dir system prompt =
    map PyStr (spec_tool_argv w tool env_dir system prompt).
Proof.
  unfold virtualenv_cmd, spec_tool_argv.
  destruct system, prompt as [label|]; simpl; try reflexivity;
    destruct (String.eqb label ""); reflexivity.
Qed.

Lemma subprocess_check_call_run (w : runtime) (site : call_site)
    (argv : list string) :
  subprocess_check_call w site (map PyStr argv) =
    match run_process w argv with
    | Some rc =>
        ([Spawn site argv rc],
         if Z.eqb rc 0 then Returned tt
         else Raised (CalledProcessError rc argv))
    | None => ([], Raised OSError)
    end.
Proof.
  unfold subprocess_check_call, subprocess_call.
  rewrite argv_of_strings.
  destruct (run_process w argv) as [rc|]; simpl; [|reflexivity].
  destruct (Z.eqb rc 0); reflexivity.
Qed.

Lemma create_virtualenv_supplied (w : runtime) (tool env_dir : string)
    (system : bool) (prompt : option string) :
  String.eqb tool "" = false ->
  create_virtualenv w (Some tool) env_dir system prompt =
    subprocess_check_call w ExternalTool
      (map PyStr (spec_tool_argv w tool env_dir system prompt)).
Proof.
  intros Htool. unfold create_virtualenv. simpl. rewrite Htool. simpl.
  now rewrite virtualenv_cmd_spec.
Qed.

Lemma truthy_of_opt (o : option string) :
  truthy (of_opt o) = true ->
  exists s, o = Some s /\ String.eqb s "" = false.
Proof.
  destruct o as [s|]; simpl; [|discriminate].
  intros H. exists s. split; [reflexivity|].
  now destruct (String.eqb s "").
Qed.

(** C8.  With a tool path supplied, the command of the external-tool child is
    exactly the running interpreter, the tool path and the destination
    directory, followed by [--system-site-packages] exactly when the system
    flag is set and by [--prompt] and the label exactly when the prompt is
    truthy; an empty prompt is forwarded no more than [None] is.  This is the
    vector every child started by [create_virtualenv] runs. *)
Theorem create_virtualenv_command :
  forall (w : runtime) (tool env_dir : string) (system : bool)
         (prompt : option string),
    String.eqb tool "" = false ->
    virtualenv_cmd w (Some tool) env_dir system prompt =
      map PyStr
        ([sys_executable w; tool; env_dir]
         ++ (if system then ["--system-site-packages"] else [])
         ++ (if truthy (of_opt prompt)
             then ["--prompt"; py_str (of_opt prompt)] else []))
    /\ argv_of (virtualenv_cmd w (Some tool) env_dir system prompt) =
         Some (spec_tool_argv w tool env_dir system prompt)
    /\ virtualenv_cmd w (Some tool) env_dir system (Some "") =
         virtualenv_cmd w (Some tool) env_dir system None
    /\ create_virtualenv w (Some tool) env_dir system prompt =
         subprocess_check_call w ExternalTool
           (map PyStr (spec_tool_argv w tool env_dir system prompt))
    /\ Forall (fun e => exists rc,
                 e = Spawn ExternalTool
                       (spec_tool_argv w tool env_dir system prompt) rc)
         (trace (create_virtualenv w (Some tool) env_dir system prompt)).
Proof.
  intros w tool env_dir system prompt Htool.
  split.
  { unfold virtualenv_cmd.
    destruct system, prompt as [label|]; simpl; try reflexivity;
      destruct (String.eqb label ""); reflexivity. }
  split.
  { rewrite virtualenv_cmd_spec. apply argv_of_strings. }
  split; [reflexivity|].
  split; [now apply create_virtualenv_supplied|].
  rewrite create_virtualenv_supplied by assumption.
  rewrite subprocess_check_call_run.
  destruct (run_process w _) as [rc|]; simpl; [|constructor].
  constructor; [|constructor]. now exists rc.
Qed.

Lemma create_virtualenv_command_witness :
  String.eqb "/opt/virtualenv.py" "" = false
  /\ virtualenv_cmd posix_runtime (Some "/opt/virtualenv.py") "env" true
       (Some "demo") =
       map PyStr ["/usr/bin/python3"; "/opt/virtualenv.py"; "env";
                  "--system-site-packages"; "--prompt"; "demo"].
Proof.
  split; [reflexivity|].
  apply (create_virtualenv_command posix_runtime "/opt/virtualenv.py" "env"
           true (Some "demo")).
  reflexivity.
Defined.

Lemma create_virtualenv_run (w : runtime) (virtualenv_py : option string)
    (env_dir : string) (system : bool) (prompt : option string) :
  create_virtualenv w virtualenv_py env_dir system prompt =
    if truthy (of_opt virtualenv_py) then
      match tool_exit_code w virtualenv_py env_dir system prompt with
      | Some rc =>
          ([Spawn ExternalTool
              (spec_tool_argv w (py_str (of_opt virtualenv_py)) env_dir
                 system prompt) rc],
           if Z.eqb rc 0 then Returned tt
           else Raised (CalledProcessError rc
                          (spec_tool_argv w (py_str (of_opt virtualenv_py))
                             env_dir system prompt)))
      | None => ([], Raised OSError)
      end
    else ([], Raised (EnvironmentError "virtualenv.py not available")).
Proof.
  unfold tool_exit_code.
  destruct (truthy (of_opt virtualenv_py)) eqn:Htruthy.
  - destruct (truthy_of_opt _ Htruthy) as (tool & -> & Htool).
    rewrite create_virtualenv_supplied by assumption.
    rewrite subprocess_check_call_run, virtualenv_cmd_spec, argv_of_strings.
    reflexivity.
  - unfold create_virtualenv. now rewrite Htruthy.
Qed.

Lemma create_with_this_rejected (w : runtime) (env_dir : string)
    (system : bool) (prompt virtualenv_py : option string) :
  result (_is_venv_usable w) = Returned false ->
  _create_with_this w env_dir system prompt virtualenv_py =
    if truthy (of_opt virtualenv_py) then
      (trace (_is_venv_usable w)
       ++ trace (create_virtualenv w virtualenv_py env_dir system prompt),
       result (create_virtualenv w virtualenv_py env_dir system prompt))
    else
      (trace (_is_venv_usable w) ++ [Stdout ("virtualenv not available" ++ nl)],
       Exited 1%Z).
Proof.
  intros Hrejected. unfold _create_with_this.
  rewrite (bind_returned _ _ _ Hrejected).
  destruct (truthy (of_opt virtualenv_py)); reflexivity.
Qed.

Lemma create_with_this_usable (w : runtime) (env_dir : string)
    (system : bool) (prompt virtualenv_py : option string) :
  result (_is_venv_usable w) = Returned true ->
  _create_with_this w env_dir system prompt virtualenv_py =
    (trace (_is_venv_usable w) ++ trace (create_venv w env_dir system prompt),
     result (create_venv w env_dir system prompt)).
Proof.
  intros Husable. unfold _create_with_this.
  now rewrite (bind_returned _ _ _ Husable).
Qed.

(** C3.  When the selection procedure rejects the built-in builder:
    without a tool path, [_create_with_this] prints that virtualenv is not
    available and ends the process with exit status 1, starting nothing;
    with a tool path, it runs the external-tool path, whose run and outcome
    are those of the tool's child, and it does not end in an exit. *)
Theorem create_with_this_without_builder :
  forall (w : runtime) (env_dir : string) (system : bool)
         (prompt virtualenv_py : option string),
    result (_is_venv_usable w) = Returned false ->
    if truthy (of_opt virtualenv_py) then
      _create_with_this w env_dir system prompt virtualenv_py =
        (trace (_is_venv_usable w)
         ++ trace (create_virtualenv w virtualenv_py env_dir system prompt),
         result (create_virtualenv w virtualenv_py env_dir system prompt))
      /\ create_virtualenv w virtualenv_py env_dir system prompt =
           subprocess_check_call w ExternalTool
             (virtualenv_cmd w virtualenv_py env_dir system prompt)
      /\ exited (result (_create_with_this w env_dir system prompt
                           virtualenv_py)) = false
    else
      _create_with_this w env_dir system prompt virtualenv_py =
        (trace (_is_venv_usable w)
         ++ [Stdout ("virtualenv not available" ++ nl)],
         Exited 1%Z).
Proof.
  intros w env_dir system prompt virtualenv_py Hrejected.
  rewrite (create_with_this_rejected _ _ _ _ _ Hrejected).
  destruct (truthy (of_opt virtualenv_py)) eqn:Htruthy; [|reflexivity].
  split; [reflexivity|]. split.
  - unfold create_virtualenv. now rewrite Htruthy.
  - simpl. rewrite create_virtualenv_run, Htruthy.
    destruct (tool_exit_code w virtualenv_py env_dir system prompt) as [rc|];
      simpl; [|reflexivity].
    destruct (Z.eqb rc 0); reflexivity.
Qed.

Lemma create_with_this_without_builder_witness :
  result (_is_venv_usable legacy_runtime) = Returned false
  /\ _create_with_this legacy_runtime "env" false None None =
       ([Stdout ("Using virtualenv" ++ nl);
         Stdout ("virtualenv not available" ++ nl)], Exited 1%Z).
Proof.
  split; [reflexivity|].
  apply (create_with_this_without_builder legacy_runtime "env" false None None).
  reflexivity.
Defined.

(** ** Which exceptions a run may end with *)

Lemma raises_only_bind {A B} (P : exn -> Prop) (m : run A) (k : A -> run B) :
  raises_only P m ->
  (forall a, raises_only P (k a)) ->
  raises_only P (bind m k).
Proof.
  unfold raises_only. intros Hm Hk. rewrite bind_unfold.
  destruct (result m); simpl; auto. apply Hk.
Qed.

Lemma subprocess_call_raises (w : runtime) (site : call_site)
    (cmd : list pyval) :
  raises_only not_environment_error (subprocess_call w site cmd).
Proof.
  unfold subprocess_call, raises_only.
  destruct (argv_of cmd) as [argv|]; simpl; [|exact I].
  destruct (run_process w argv); simpl; exact I.
Qed.

Lemma library_step_raises (w : runtime) (s : builder_step) (b : builder)
    (env_dir : string) :
  raises_only not_environment_error (library_step w s b env_dir).
Proof.
  unfold library_step, raises_only. destruct (venv_step w s); simpl; exact I.
Qed.

Ltac raises_only_tac :=
  repeat first
    [ apply raises_only_bind
    | apply library_step_raises
    | apply subprocess_call_raises
    | intro
    | match goal with
      | |- raises_only _ (if ?c then _ else _) => destruct c
      end
    | exact I ].

Lemma create_venv_raises (w : runtime) (env_dir : string) (system : bool)
    (prompt : option string) :
  raises_only not_environment_error (create_venv w env_dir system prompt).
Proof.
  unfold create_venv. destruct (venv_available w); [|exact I].
  unfold _EnvBuilder.create, _EnvBuilder.ensure_directories,
    EnvBuilder.ensure_directories, _EnvBuilder.setup_python,
    EnvBuilder.setup_python, _EnvBuilder.post_setup.
  raises_only_tac.
Qed.

Lemma raises_only_no_configuration_error {A} (r : run A) :
  raises_only not_environment_error r ->
  configuration_error (result r) = false.
Proof.
  unfold raises_only. destruct (result r) as [a | e | c]; simpl; auto.
  destruct e; simpl; tauto.
Qed.

(** C6.  [create_virtualenv] ends in the configuration error exactly when no
    tool path was supplied; it ends in the process error exactly when the
    tool's child ran and exited with a non-zero code, and that error carries
    the code.  The failure is not swallowed: an in-process [create] whose
    selection rejects the built-in builder ends the way [create_virtualenv]
    does. *)
Theorem create_virtualenv_failures :
  forall (w : runtime) (virtualenv_py : option string) (env_dir : string)
         (system : bool) (prompt : option string),
    (result (create_virtualenv w virtualenv_py env_dir system prompt) =
       Raised (EnvironmentError "virtualenv.py not available")
     <-> truthy (of_opt virtualenv_py) = false)
    /\ configuration_error
         (result (create_virtualenv w virtualenv_py env_dir system prompt)) =
       negb (truthy (of_opt virtualenv_py))
    /\ (process_error
          (result (create_virtualenv w virtualenv_py env_dir system prompt)) =
          true
        <-> exists rc,
              tool_exit_code w virtualenv_py env_dir system prompt = Some rc
              /\ rc <> 0%Z)
    /\ (forall rc,
          tool_exit_code w virtualenv_py env_dir system prompt = Some rc ->
          result (create_virtualenv w virtualenv_py env_dir system prompt) =
            if Z.eqb rc 0 then Returned tt
            else Raised (CalledProcessError rc
                           (spec_tool_argv w (py_str (of_opt virtualenv_py))
                              env_dir system prompt)))
    /\ (forall python,
          names_this_interpreter w python = true ->
          result (_is_venv_usable w) = Returned false ->
          truthy (of_opt virtualenv_py) = true ->
          result (create w python env_dir system prompt virtualenv_py) =
            result (create_virtualenv w virtualenv_py env_dir system prompt)).
Proof.
  intros w virtualenv_py env_dir system prompt.
  rewrite create_virtualenv_run.
  assert (Hnone : truthy (of_opt virtualenv_py) = false ->
                  tool_exit_code w virtualenv_py env_dir system prompt = None).
  { intros H. unfold tool_exit_code. now rewrite H. }
  destruct (truthy (of_opt virtualenv_py)) eqn:Htruthy.
  - clear Hnone.
    destruct (tool_exit_code w virtualenv_py env_dir system prompt) as [rc|]
      eqn:Hcode; simpl.
    + destruct (Z.eqb_spec rc 0) as [Hrc | Hrc]; simpl.
      * repeat split; try discriminate.
        -- intros (rc' & [= <-] & Hnz). contradiction.
        -- intros rc' [= <-]. subst rc. reflexivity.
        -- intros python Hsame Hrejected _.
           unfold create. rewrite create_guard, Hsame.
           rewrite (create_with_this_rejected _ _ _ _ _ Hrejected), Htruthy.
           simpl. rewrite create_virtualenv_run, Htruthy, Hcode.
           subst rc. reflexivity.
      * repeat split; try discriminate.
        -- intros _. exists rc. split; [reflexivity | assumption].
        -- intros rc' [= <-]. destruct (Z.eqb_spec rc 0); [contradiction|].
           reflexivity.
        -- intros python Hsame Hrejected _.
           unfold create. rewrite create_guard, Hsame.
           rewrite (create_with_this_rejected _ _ _ _ _ Hrejected), Htruthy.
           simpl. rewrite create_virtualenv_run, Htruthy, Hcode.
           destruct (Z.eqb_spec rc 0); [contradiction|]. reflexivity.
    + repeat split; try discriminate.
      * intros (rc & [=] & _).
      * intros python Hsame Hrejected _.
        unfold create. rewrite create_guard, Hsame.
        rewrite (create_with_this_rejected _ _ _ _ _ Hrejected), Htruthy.
        simpl. rewrite create_virtualenv_run, Htruthy, Hcode. reflexivity.
  - simpl. rewrite (Hnone eq_refl).
    repeat split; try discriminate.
    intros (rc & [=] & _).
Qed.

Lemma create_virtualenv_failures_witness :
  tool_exit_code (with_exit_code legacy_runtime 2) (Some "/opt/virtualenv.py")
    "env" false None = Some 2%Z
  /\ result (create_virtualenv (with_exit_code legacy_runtime 2)
               (Some "/opt/virtualenv.py") "env" false None) =
       Raised (CalledProcessError 2
                 ["/srv/ve/bin/python"; "/opt/virtualenv.py"; "env"])
  /\ result (create (with_exit_code legacy_runtime 2) None "env" false None
               (Some "/opt/virtualenv.py")) =
       result (create_virtualenv (with_exit_code legacy_runtime 2)
                 (Some "/opt/virtualenv.py") "env" false None).
Proof.
  destruct (create_virtualenv_failures (with_exit_code legacy_runtime 2)
              (Some "/opt/virtualenv.py") "env" false None)
    as (_ & _ & _ & Hcode & Hpropagates).
  split; [reflexivity|]. split.
  - apply (Hcode 2%Z). reflexivity.
  - apply (Hpropagates None); reflexivity.
Defined.

(** C9.  Reached through [_create_with_this], the "virtualenv.py not
    available" branch of [create_virtualenv] never fires: no run of the
    dispatcher ends in the configuration error, because the dispatcher calls
    [create_virtualenv] only with a truthy tool path, and with a truthy tool
    path [create_virtualenv] does not raise it. *)
Theorem create_with_this_never_configuration_error :
  forall (w : runtime) (env_dir : string) (system : bool)
         (prompt virtualenv_py : option string),
    configuration_error
      (result (_create_with_this w env_dir system prompt virtualenv_py)) = false
    /\ truthy (of_opt virtualenv_py)
       && configuration_error
            (result (create_virtualenv w virtualenv_py env_dir system prompt))
       = false
    /\ (truthy (of_opt virtualenv_py) = false
        \/ _create_with_this w env_dir system prompt virtualenv_py =
             bind (_is_venv_usable w)
               (fun usable =>
                  if usable then create_venv w env_dir system prompt
                  else subprocess_check_call w ExternalTool
                         (virtualenv_cmd w virtualenv_py env_dir system prompt))).
Proof.
  intros w env_dir system prompt virtualenv_py.
  assert (Htool : truthy (of_opt virtualenv_py)
                  && configuration_error
                       (result (create_virtualenv w virtualenv_py env_dir
                                  system prompt)) = false).
  { rewrite create_virtualenv_run.
    destruct (truthy (of_opt virtualenv_py)); [|reflexivity].
    destruct (tool_exit_code w virtualenv_py env_dir system prompt) as [rc|];
      simpl; [|reflexivity].
    destruct (Z.eqb rc 0); reflexivity. }
  split; [|split; [exact Htool|]].
  - unfold _create_with_this. rewrite is_venv_usable_run.
    cbv zeta. rewrite bind_unfold. cbn [result trace fst snd].
    destruct (selects_builtin _); cbn [result trace fst snd].
    + apply raises_only_no_configuration_error, create_venv_raises.
    + destruct (truthy (of_opt virtualenv_py)); [|reflexivity].
      exact Htool.
  - destruct (truthy (of_opt virtualenv_py)) eqn:Htruthy; [right|now left].
    unfold _create_with_this, create_virtualenv. now rewrite Htruthy.
Qed.

(** ** The built-in builder *)

Lemma create_venv_builder_fields (w : runtime) (system : bool)
    (prompt : option string) :
  create_venv_builder w system prompt =
    {| b_system_site_packages := PyBool system;
       b_clear := PyBool false;
       b_symlinks := PyBool (negb (String.eqb (os_name w) "nt"));
       b_upgrade := PyBool false;
       b_with_pip := PyBool true;
       b_prompt := of_opt prompt |}.
Proof.
  unfold create_venv_builder, _EnvBuilder.init, EnvBuilder.init, version_ge.
  destruct (version_lt (version_info w) 3 6); reflexivity.
Qed.

Lemma library_step_built_by (w : runtime) (s : builder_step) (b : builder)
    (env_dir : string) :
  Forall (built_by b) (trace (library_step w s b env_dir)).
Proof.
  unfold library_step. destruct (venv_step w s); simpl; repeat constructor.
Qed.

Lemma subprocess_call_built_by (w : runtime) (b : builder) (site : call_site)
    (cmd : list pyval) :
  Forall (built_by b) (trace (subprocess_call w site cmd)).
Proof.
  eapply Forall_impl; [|apply subprocess_call_events].
  intros e (argv & rc & _ & ->). exact I.
Qed.

Lemma builder_create_built_by (w : runtime) (b : builder) (env_dir : string) :
  Forall (built_by b) (trace (_EnvBuilder.create w b env_dir)).
Proof.
  unfold _EnvBuilder.create, _EnvBuilder.ensure_directories,
    EnvBuilder.ensure_directories, _EnvBuilder.setup_python,
    EnvBuilder.setup_python, _EnvBuilder.post_setup.
  repeat first
    [ apply trace_bind_Forall
    | apply library_step_built_by
    | apply subprocess_call_built_by
    | intro
    | match goal with
      | |- Forall _ (trace (if ?c then _ else _)) => destruct c
      end
    | solve [simpl; repeat constructor] ].
Qed.

(** C7.  On the built-in path, [create_venv] runs the builder constructed
    with symlinks enabled exactly when [os.name] is not ['nt'], with the
    installer bootstrap enabled, with the requested system-site-packages
    flag and with the given prompt, on every Python version; every step of
    the build is made by that builder. *)
Theorem create_venv_builder_configuration :
  forall (w : runtime) (env_dir : string) (system_site_packages : bool)
         (prompt : option string),
    venv_available w = true ->
    create_venv w env_dir system_site_packages prompt =
      _EnvBuilder.create w
        (create_venv_builder w system_site_packages prompt) env_dir
    /\ b_symlinks (create_venv_builder w system_site_packages prompt) =
         PyBool (negb (String.eqb (os_name w) "nt"))
    /\ (truthy (b_symlinks (create_venv_builder w system_site_packages prompt))
          = true <-> os_name w <> "nt")
    /\ b_with_pip (create_venv_builder w system_site_packages prompt) =
         PyBool true
    /\ b_system_site_packages
         (create_venv_builder w system_site_packages prompt) =
         PyBool system_site_packages
    /\ b_prompt (create_venv_builder w system_site_packages prompt) =
         of_opt prompt
    /\ Forall (built_by (create_venv_builder w system_site_packages prompt))
         (trace (create_venv w env_dir system_site_packages prompt)).
Proof.
  intros w env_dir system prompt Hvenv.
  assert (Hrun : create_venv w env_dir system prompt =
                 _EnvBuilder.create w (create_venv_builder w system prompt)
                   env_dir).
  { unfold create_venv. now rewrite Hvenv. }
  split; [exact Hrun|].
  rewrite Hrun.
  pose proof (create_venv_builder_fields w system prompt) as Hfields.
  split; [now rewrite Hfields|].
  split.
  { rewrite Hfields. simpl.
    destruct (String.eqb_spec (os_name w) "nt"); simpl; split; congruence. }
  split; [now rewrite Hfields|].
  split; [now rewrite Hfields|].
  split; [now rewrite Hfields|].
  apply builder_create_built_by.
Qed.

Lemma create_venv_builder_configuration_witness :
  venv_available posix_runtime = true
  /\ b_symlinks (create_venv_builder posix_runtime true (Some "demo")) =
       PyBool true
  /\ b_with_pip (create_venv_builder posix_runtime true (Some "demo")) =
       PyBool true.
Proof.
  destruct (create_venv_builder_configuration posix_runtime "env" true
              (Some "demo") eq_refl)
    as (_ & Hsymlinks & _ & Hpip & _).
  split; [reflexivity|]. split; [exact Hsymlinks | exact Hpip].
Defined.

(** ** The upgrade step *)

Lemma post_setup_run (w : runtime) (c : context) :
  _EnvBuilder.post_setup w c =
    match run_process w (upgrade_argv (ctx_env_exe c)) with
    | Some rc =>
        ([Stdout "Ensuring up-to-date setuptools, pip, and wheel...";
          Spawn UpgradeStep (upgrade_argv (ctx_env_exe c)) rc;
          Stdout ((if Z.eqb rc 0 then "done" else "") ++ nl)],
         Returned tt)
    | None =>
        ([Stdout "Ensuring up-to-date setuptools, pip, and wheel..."],
         Raised OSError)
    end.
Proof.
  unfold _EnvBuilder.post_setup, subprocess_call, _EnvBuilder.upgrade_cmd.
  change (argv_of _) with (Some (upgrade_argv (ctx_env_exe c))).
  cbv iota.
  destruct (run_process w (upgrade_argv (ctx_env_exe c))) as [rc|]; simpl;
    [|reflexivity].
  destruct (Z.eqb rc 0); reflexivity.
Qed.

Lemma bind_assoc {A B C} (m : run A) (k : A -> run B) (h : B -> run C) :
  bind (bind m k) h = bind m (fun a => bind (k a) h).
Proof.
  destruct m as [t [a | e | c]]; simpl; try reflexivity.
  destruct (k a) as [t' [b | e | c]]; simpl; try reflexivity.
  destruct (h b) as [t'' o]. now rewrite app_assoc.
Qed.

Lemma bind_ext {A B} (m : run A) (k k' : A -> run B) :
  (forall a, k a = k' a) -> bind m k = bind m k'.
Proof.
  intros H. destruct m as [t [a | e | c]]; simpl; try reflexivity.
  now rewrite H.
Qed.

Lemma bind_ret {A B} (a : A) (k : A -> run B) : bind (ret a) k = k a.
Proof. unfold ret, bind. destruct (k a); reflexivity. Qed.

Lemma builds_app (t1 t2 : list event) :
  builds (t1 ++ t2) = builds t1 ++ builds t2.
Proof.
  induction t1 as [| e t1 IH]; simpl; [reflexivity|].
  destruct e; simpl; now rewrite IH.
Qed.

Lemma builder_create_split (w : runtime) (b : builder) (env_dir : string) :
  _EnvBuilder.create w b env_dir =
    bind (build_before_post_setup w b env_dir) (call_post_setup w).
Proof.
  unfold _EnvBuilder.create, build_before_post_setup. cbv zeta.
  rewrite bind_assoc. apply bind_ext. intros c.
  rewrite bind_assoc. apply bind_ext. intros _.
  rewrite bind_assoc. apply bind_ext. intros _.
  rewrite bind_assoc. apply bind_ext. intros _.
  destruct (negb (truthy (b_upgrade b))).
  - rewrite bind_assoc. apply bind_ext. intros _.
    now rewrite bind_ret.
  - now rewrite bind_ret.
Qed.

Lemma build_before_post_setup_context (w : runtime) (b : builder)
    (env_dir : string) (c : context) :
  result (build_before_post_setup w b env_dir) = Returned (Some c) ->
  ctx_env_exe c = env_exe_of w (abspath w env_dir).
Proof.
  unfold build_before_post_setup, _EnvBuilder.ensure_directories,
    EnvBuilder.ensure_directories, _EnvBuilder.setup_python,
    EnvBuilder.setup_python, library_step.
  destruct (venv_step w EnsureDirectories); [discriminate|].
  destruct (venv_step w CreateConfiguration);
    [destruct (_ && _); discriminate|].
  destruct (venv_step w SetupPython); [destruct (_ && _); discriminate|].
  destruct (truthy (b_with_pip b)), (truthy (b_upgrade b));
    try destruct (venv_step w SetupPip);
    try destruct (venv_step w SetupScripts);
    destruct (_ && _); simpl; intros [= <-]; reflexivity.
Qed.

(** With the upgrade child started, the way a build ends and the steps it
    completed are those of the part before [post_setup]. *)
Lemma builder_create_outcome (w : runtime) (b : builder) (env_dir : string)
    (rc : Z) :
  run_process w (upgrade_argv (env_exe_of w (abspath w env_dir))) = Some rc ->
  result (_EnvBuilder.create w b env_dir) =
    match result (build_before_post_setup w b env_dir) with
    | Returned _ => Returned tt
    | Raised e => Raised e
    | Exited code => Exited code
    end
  /\ builds (trace (_EnvBuilder.create w b env_dir)) =
       builds (trace (build_before_post_setup w b env_dir)).
Proof.
  intros Hchild. rewrite builder_create_split, bind_unfold.
  destruct (result (build_before_post_setup w b env_dir)) as [oc | e | code]
    eqn:Hbefore; simpl; try (split; reflexivity).
  destruct oc as [c|]; simpl.
  - rewrite post_setup_run.
    rewrite (build_before_post_setup_context _ _ _ _ Hbefore), Hchild. simpl.
    rewrite builds_app. simpl. now rewrite app_nil_r.
  - now rewrite app_nil_r.
Qed.

Lemma build_before_post_setup_succeeds (w : runtime) (env_dir : string)
    (system : bool) (prompt : option string) :
  (forall s, venv_step w s = None) ->
  returned (result (build_before_post_setup w
                      (create_venv_builder w system prompt) env_dir)) = true
  /\ builds (trace (build_before_post_setup w
                      (create_venv_builder w system prompt) env_dir)) =
       [EnsureDirectories; CreateConfiguration; SetupPython; SetupPip;
        SetupScripts].
Proof.
  intros Hsteps. rewrite create_venv_builder_fields.
  unfold build_before_post_setup, _EnvBuilder.ensure_directories,
    EnvBuilder.ensure_directories, _EnvBuilder.setup_python,
    EnvBuilder.setup_python, library_step.
  rewrite !Hsteps. cbn [b_with_pip b_upgrade truthy negb].
  destruct (_ && _); split; reflexivity.
Qed.

Lemma usable_venv_available (w : runtime) :
  result (_is_venv_usable w) = Returned true -> venv_available w = true.
Proof.
  rewrite is_venv_usable_result. intros [= H].
  destruct (venv_available w); [reflexivity | discriminate].
Qed.

Lemma is_venv_usable_builds (w : runtime) :
  builds (trace (_is_venv_usable w)) = [].
Proof. now rewrite is_venv_usable_run. Qed.

(** An in-process [create] on the built-in path, once the upgrade child can
    be started, ends as the build before [post_setup] ends. *)
Lemma create_in_process_outcome (w : runtime) (python : option string)
    (env_dir : string) (system : bool) (prompt virtualenv_py : option string)
    (rc : Z) :
  names_this_interpreter w python = true ->
  result (_is_venv_usable w) = Returned true ->
  run_process w (upgrade_argv (env_exe_of w (abspath w env_dir))) = Some rc ->
  result (create w python env_dir system prompt virtualenv_py) =
    match result (build_before_post_setup w
                    (create_venv_builder w system prompt) env_dir) with
    | Returned _ => Returned tt
    | Raised e => Raised e
    | Exited code => Exited code
    end
  /\ builds (trace (create w python env_dir system prompt virtualenv_py)) =
       builds (trace (build_before_post_setup w
                        (create_venv_builder w system prompt) env_dir)).
Proof.
  intros Hsame Husable Hchild.
  unfold create. rewrite create_guard, Hsame.
  rewrite (create_with_this_usable _ _ _ _ _ Husable).
  cbn [result trace fst snd].
  rewrite builds_app, is_venv_usable_builds. cbn [app].
  unfold create_venv. rewrite (usable_venv_available _ Husable).
  now apply builder_create_outcome with (rc := rc).
Qed.

(** C5.  The upgrade step is not fatal.  Whatever code the upgrade child
    returns, [post_setup] prints its progress and returns normally; an
    in-process creation on the built-in path ends exactly as it does when
    the child returns 0 and has completed the same build steps, so nothing
    that was built is undone; and when the library's steps succeed the
    creation returns normally with the whole environment built. *)
Theorem upgrade_failure_is_not_fatal :
  forall (w : runtime) (python : option string) (env_dir : string)
         (system : bool) (prompt virtualenv_py : option string) (rc : Z)
         (c : context),
    names_this_interpreter w python = true ->
    result (_is_venv_usable w) = Returned true ->
    run_process w (upgrade_argv (env_exe_of w (abspath w env_dir))) = Some rc ->
    _EnvBuilder.post_setup (with_exit_code w rc) c =
      ([Stdout "Ensuring up-to-date setuptools, pip, and wheel...";
        Spawn UpgradeStep (upgrade_argv (ctx_env_exe c)) rc;
        Stdout ((if Z.eqb rc 0 then "done" else "") ++ nl)],
       Returned tt)
    /\ result (create w python env_dir system prompt virtualenv_py) =
         result (create (with_exit_code w 0) python env_dir system prompt
                   virtualenv_py)
    /\ builds (trace (create w python env_dir system prompt virtualenv_py)) =
         builds (trace (create (with_exit_code w 0) python env_dir system
                          prompt virtualenv_py))
    /\ ((forall s, venv_step w s = None) ->
        result (create w python env_dir system prompt virtualenv_py) =
          Returned tt
        /\ builds (trace (create w python env_dir system prompt
                            virtualenv_py)) =
             [EnsureDirectories; CreateConfiguration; SetupPython; SetupPip;
              SetupScripts]).
Proof.
  intros w python env_dir system prompt virtualenv_py rc c
    Hsame Husable Hchild.
  split; [now rewrite post_setup_run|].
  destruct (create_in_process_outcome w python env_dir system prompt
              virtualenv_py rc Hsame Husable Hchild) as [Hresult Hbuilds].
  destruct (create_in_process_outcome (with_exit_code w 0) python env_dir
              system prompt virtualenv_py 0%Z Hsame Husable eq_refl)
    as [Hresult0 Hbuilds0].
  split; [rewrite Hresult, Hresult0; reflexivity|].
  split; [rewrite Hbuilds, Hbuilds0; reflexivity|].
  intros Hsteps.
  destruct (build_before_post_setup_succeeds w env_dir system prompt Hsteps)
    as [Hreturned Hfive].
  rewrite Hresult, Hbuilds. split; [|exact Hfive].
  destruct (result (build_before_post_setup w _ env_dir));
    [reflexivity | discriminate | discriminate].
Qed.

Lemma upgrade_failure_is_not_fatal_witness :
  names_this_interpreter (with_exit_code posix_runtime 1) None = true
  /\ result (_is_venv_usable (with_exit_code posix_runtime 1)) = Returned true
  /\ run_process (with_exit_code posix_runtime 1)
       (upgrade_argv "env/bin/python") = Some 1%Z
  /\ result (create (with_exit_code posix_runtime 1) None "env" false None
               None) = Returned tt.
Proof.
  repeat (split; [reflexivity|]).
  apply (upgrade_failure_is_not_fatal (with_exit_code posix_runtime 1) None
           "env" false None None 1%Z
           (mkContext "env" "env" "env/bin/python" PyNone)
           eq_refl eq_refl eq_refl).
  intros s. reflexivity.
Defined.

(** ** Self-delegation *)

Lemma create_with_python_run (w : runtime) (python : option string)
    (env_dir : string) (system : bool) (prompt virtualenv_py : option string) :
  _create_with_python w python env_dir system prompt virtualenv_py =
    match python, prompt with
    | Some p, Some label =>
        match run_process w
                (delegation_argv w p env_dir system label virtualenv_py) with
        | Some rc =>
            ([Spawn SelfDelegation
                (delegation_argv w p env_dir system label virtualenv_py) rc],
             Exited rc)
        | None => ([], Raised OSError)
        end
    | _, _ => ([], Raised TypeError)
    end.
Proof.
  unfold _create_with_python, subprocess_call.
  rewrite delegation_cmd_argv.
  destruct python as [p|]; [|reflexivity].
  destruct prompt as [label|]; [|reflexivity].
  destruct (run_process w _); reflexivity.
Qed.

(** C2.  How [create] dispatches, and where the delegation fails to
    happen.  With [python] [None], empty or equal to [sys.executable] the
    environment is built in-process by [_create_with_this] and no
    self-delegation child is started.  In every other case the call goes to
    [_create_with_python]: with a string prompt the requested interpreter is
    started once on the delegation command and the process exits with its
    return code (or [OSError] propagates when it cannot be started); with
    [prompt=None] the command is malformed, [TypeError] is raised and no
    re-invocation takes place. *)
Theorem create_dispatch_runs :
  (forall (w : runtime) (python : option string) (env_dir : string)
          (system : bool) (prompt virtualenv_py : option string),
      if names_this_interpreter w python then
        create w python env_dir system prompt virtualenv_py =
          _create_with_this w env_dir system prompt virtualenv_py
        /\ Forall (fun e => is_self_delegation e = false)
             (trace (create w python env_dir system prompt virtualenv_py))
      else
        exists interpreter,
          python = Some interpreter
          /\ create w python env_dir system prompt virtualenv_py =
               _create_with_python w python env_dir system prompt
                 virtualenv_py
          /\ create w python env_dir system prompt virtualenv_py =
               match prompt with
               | Some label =>
                   match run_process w
                           (delegation_argv w interpreter env_dir system label
                              virtualenv_py) with
                   | Some rc =>
                       ([Spawn SelfDelegation
                           (delegation_argv w interpreter env_dir system label
                              virtualenv_py) rc],
                        Exited rc)
                   | None => ([], Raised OSError)
                   end
               | None => ([], Raised TypeError)
               end)
  /\ names_this_interpreter posix_runtime (Some "/usr/bin/python2") = false
  /\ create posix_runtime (Some "/usr/bin/python2") "env" false None None =
       ([], Raised TypeError).
Proof.
  split; [|split; reflexivity].
  intros w python env_dir system prompt virtualenv_py.
  unfold create. rewrite create_guard.
  destruct (names_this_interpreter w python) eqn:Hsame.
  - split; [reflexivity|]. apply create_with_this_not_delegating.
  - destruct python as [interpreter|]; [|discriminate Hsame].
    exists interpreter. split; [reflexivity|]. split; [reflexivity|].
    now rewrite create_with_python_run.
Qed.

(** C4.  The self-delegation path on the inputs where it breaks.  With
    [prompt=None] the command holds [None] after [--prompt], so
    [subprocess.call] raises [TypeError] and no child is started, on every
    runtime and for every other argument.  With a module file ending in
    [.pyc] the slice [this_file[:1]] keeps the first character only, so the
    child is started on ["/"] instead of on this program. *)
Theorem create_with_python_breaks :
  (forall (w : runtime) (python : option string) (env_dir : string)
          (system : bool) (virtualenv_py : option string),
      _create_with_python w python env_dir system None virtualenv_py =
        ([], Raised TypeError))
  /\ create posix_runtime (Some "/usr/bin/python2") "env" false None None =
       ([], Raised TypeError)
  /\ delegated_file (with_dunder_file posix_runtime "/opt/tools/envcreate.pyc")
       = "/"
  /\ create (with_dunder_file posix_runtime "/opt/tools/envcreate.pyc")
       (Some "/usr/bin/python2") "env" false (Some "demo") None =
       ([Spawn SelfDelegation ["/usr/bin/python2"; "/"; "env"; "--prompt"; "demo"]
           0%Z],
        Exited 0%Z).
Proof.
  split.
  - intros w python env_dir system virtualenv_py.
    rewrite create_with_python_run. now destruct python.
  - repeat split.
Qed.

(** C10, as stated: not every invocation of [_create_with_python] ends in
    [sys.exit] with a child's return code.  Where the requested interpreter
    cannot be started, [subprocess.call] raises and no exit takes place. *)
Lemma create_with_python_may_raise :
  _create_with_python legacy_runtime (Some "/usr/bin/python3") "env" false
    (Some "demo") None = ([], Raised OSError)
  /\ ~ (forall (w : runtime) (python : option string) (env_dir : string)
               (system : bool) (prompt virtualenv_py : option string),
          exists rc,
            result (_create_with_python w python env_dir system prompt
                      virtualenv_py) = Exited rc).
Proof.
  split; [reflexivity|].
  intros H.
  destruct (H legacy_runtime (Some "/usr/bin/python3") "env" false
              (Some "demo") None) as [rc Hrc].
  discriminate Hrc.
Qed.

(** C10, amended.  The self-delegation path never returns normally to its
    caller.  When the child is started, [_create_with_python] ends in
    [sys.exit] with the child's return code, also when that code is 0; when
    the child cannot be started, the exception of [subprocess.call]
    propagates.  So [create] with another interpreter never returns
    normally, whereas an in-process [create] on the built-in path returns
    normally when the build succeeds. *)
Theorem create_with_python_never_returns :
  forall (w : runtime) (python : option string) (env_dir : string)
         (system : bool) (prompt virtualenv_py : option string),
    returned (result (_create_with_python w python env_dir system prompt
                        virtualenv_py)) = false
    /\ (forall p label rc,
          python = Some p -> prompt = Some label ->
          run_process w
            (delegation_argv w p env_dir system label virtualenv_py) = Some rc ->
          _create_with_python w python env_dir system prompt virtualenv_py =
            ([Spawn SelfDelegation
                (delegation_argv w p env_dir system label virtualenv_py) rc],
             Exited rc))
    /\ (forall p label,
          python = Some p -> prompt = Some label ->
          run_process w
            (delegation_argv w p env_dir system label virtualenv_py) = None ->
          _create_with_python w python env_dir system prompt virtualenv_py =
            ([], Raised OSError))
    /\ (names_this_interpreter w python = false ->
        returned (result (create w python env_dir system prompt
                            virtualenv_py)) = false)
    /\ (forall rc,
          names_this_interpreter w python = true ->
          result (_is_venv_usable w) = Returned true ->
          (forall s, venv_step w s = None) ->
          run_process w (upgrade_argv (env_exe_of w (abspath w env_dir))) =
            Some rc ->
          result (create w python env_dir system prompt virtualenv_py) =
            Returned tt).
Proof.
  intros w python env_dir system prompt virtualenv_py.
  assert (Hnever : returned
                     (result (_create_with_python w python env_dir system
                                prompt virtualenv_py)) = false).
  { rewrite create_with_python_run.
    destruct python as [p|]; [|reflexivity].
    destruct prompt as [label|]; [|reflexivity].
    destruct (run_process w _); reflexivity. }
  split; [exact Hnever|]. split; [|split; [|split]].
  - intros p label rc -> -> Hchild.
    now rewrite create_with_python_run, Hchild.
  - intros p label -> -> Hchild.
    now rewrite create_with_python_run, Hchild.
  - intros Hother. unfold create. rewrite create_guard, Hother. exact Hnever.
  - intros rc Hsame Husable Hsteps Hchild.
    destruct (create_in_process_outcome w python env_dir system prompt
                virtualenv_py rc Hsame Husable Hchild) as [Hresult _].
    destruct (build_before_post_setup_succeeds w env_dir system prompt Hsteps)
      as [Hreturned _].
    rewrite Hresult.
    destruct (result (build_before_post_setup w _ env_dir));
      [reflexivity | discriminate | discriminate].
Qed.

Lemma create_with_python_never_returns_witness :
  run_process posix_runtime
    (delegation_argv posix_runtime "/usr/bin/python2" "env" false "demo" None)
    = Some 0%Z
  /\ _create_with_python posix_runtime (Some "/usr/bin/python2") "env" false
       (Some "demo") None =
       ([Spawn SelfDelegation
           ["/usr/bin/python2"; "/opt/tools/envcreate.py"; "env"; "--prompt";
            "demo"] 0%Z],
        Exited 0%Z)
  /\ names_this_interpreter posix_runtime (Some "/usr/bin/python2") = false
  /\ returned (result (create posix_runtime (Some "/usr/bin/python2") "env"
                         false (Some "demo") None)) = false.
Proof.
  destruct (create_with_python_never_returns posix_runtime
              (Some "/usr/bin/python2") "env" false (Some "demo") None)
    as (_ & Hexit & _ & Hother & _).
  split; [reflexivity|]. split.
  - apply (Hexit "/usr/bin/python2" "demo" 0%Z); reflexivity.
  - split; [reflexivity|]. apply Hother. reflexivity.
Defined.

(** ** The custom builder's constructor and context *)

(** X2.  The custom prompt on the Python versions the override is written
    for.  On Python 3.4 and 3.5, where the library's constructor takes no
    prompt, the constructor keeps the prompt of [create_venv] out of the
    keywords and in [self.prompt], and once the library's step succeeded
    [ensure_directories] returns the library's context with the prompt put
    in verbatim; without a prompt the library's label from the
    environment's name stays. *)
Theorem custom_prompt_before_3_6 :
  forall (w : runtime) (system : bool) (prompt : option string)
         (env_dir : string),
    version_ge (version_info w) 3 4 = true ->
    version_lt (version_info w) 3 6 = true ->
    venv_step w EnsureDirectories = None ->
    b_prompt (create_venv_builder w system prompt) = of_opt prompt
    /\ _EnvBuilder.ensure_directories w (create_venv_builder w system prompt)
         env_dir =
         ([Build EnsureDirectories (create_venv_builder w system prompt)
             env_dir],
          Returned
            {| ctx_env_dir := env_dir;
               ctx_env_name := env_name_of w env_dir;
               ctx_env_exe := env_exe_of w env_dir;
               ctx_prompt :=
                 match prompt with
                 | Some label => PyStr label
                 | None => PyStr ("(" ++ env_name_of w env_dir ++ ") ")
                 end |}).
Proof.
  intros w system prompt env_dir _ Hold Hstep.
  split; [now rewrite create_venv_builder_fields|].
  unfold _EnvBuilder.ensure_directories, EnvBuilder.ensure_directories,
    library_step.
  rewrite Hstep, create_venv_builder_fields. unfold version_ge.
  rewrite Hold. destruct prompt as [label|]; reflexivity.
Qed.

Lemma custom_prompt_before_3_6_witness :
  version_ge (version_info (with_version posix_runtime (3, 5))) 3 4 = true
  /\ version_lt (version_info (with_version posix_runtime (3, 5))) 3 6 = true
  /\ venv_step (with_version posix_runtime (3, 5)) EnsureDirectories = None
  /\ result (_EnvBuilder.ensure_directories (with_version posix_runtime (3, 5))
               (create_venv_builder (with_version posix_runtime (3, 5)) false
                  (Some "demo")) "env") =
       Returned (mkContext "env" "env" "env/bin/python" (PyStr "demo")).
Proof.
  repeat (split; [reflexivity|]).
  destruct (custom_prompt_before_3_6 (with_version posix_runtime (3, 5)) false
              (Some "demo") "env" eq_refl eq_refl eq_refl) as [_ Hrun].
  now rewrite Hrun.
Defined.

(** ** How runs may end *)

Lemma ends_only_bind {A B} (P : exn -> Prop) (Q : Z -> Prop) (m : run A)
    (k : A -> run B) :
  ends_only P Q m ->
  (forall a, ends_only P Q (k a)) ->
  ends_only P Q (bind m k).
Proof.
  unfold ends_only. intros Hm Hk. rewrite bind_unfold.
  destruct (result m); simpl; auto. apply Hk.
Qed.

Lemma ends_only_weaken {A} (P P' : exn -> Prop) (Q Q' : Z -> Prop)
    (r : run A) :
  (forall e, P e -> P' e) -> (forall c, Q c -> Q' c) ->
  ends_only P Q r -> ends_only P' Q' r.
Proof.
  unfold ends_only. intros HP HQ. destruct (result r); auto.
Qed.

Lemma library_step_ends (w : runtime) (s : builder_step) (b : builder)
    (env_dir : string) :
  ends_only build_failure no_exit (library_step w s b env_dir).
Proof.
  unfold library_step, ends_only. destruct (venv_step w s); simpl; exact I.
Qed.

Lemma post_setup_ends (w : runtime) (c : context) :
  ends_only build_failure no_exit (_EnvBuilder.post_setup w c).
Proof.
  rewrite post_setup_run. unfold ends_only.
  destruct (run_process w _); simpl; exact I.
Qed.

Lemma builder_create_ends (w : runtime) (b : builder) (env_dir : string) :
  ends_only build_failure no_exit (_EnvBuilder.create w b env_dir).
Proof.
  unfold _EnvBuilder.create, _EnvBuilder.ensure_directories,
    EnvBuilder.ensure_directories, _EnvBuilder.setup_python,
    EnvBuilder.setup_python.
  cbv zeta.
  repeat first
    [ apply library_step_ends
    | apply post_setup_ends
    | apply ends_only_bind
    | intro
    | match goal with
      | |- ends_only _ _ (if ?c then _ else _) => destruct c
      end
    | exact I ].
Qed.

Lemma create_virtualenv_supplied_ends (w : runtime)
    (virtualenv_py : option string) (env_dir : string) (system : bool)
    (prompt : option string) :
  truthy (of_opt virtualenv_py) = true ->
  ends_only in_process_failure no_exit
    (create_virtualenv w virtualenv_py env_dir system prompt).
Proof.
  intros Htruthy. rewrite create_virtualenv_run, Htruthy. unfold ends_only.
  destruct (tool_exit_code w virtualenv_py env_dir system prompt) as [rc|];
    simpl; [|exact I].
  destruct (Z.eqb rc 0); simpl; exact I.
Qed.

Lemma build_failure_in_process (e : exn) :
  build_failure e -> in_process_failure e.
Proof. destruct e; simpl; tauto. Qed.

Lemma create_with_this_ends (w : runtime) (env_dir : string) (system : bool)
    (prompt virtualenv_py : option string) :
  ends_only in_process_failure (fun code => code = 1%Z)
    (_create_with_this w env_dir system prompt virtualenv_py).
Proof.
  unfold _create_with_this.
  destruct (result (_is_venv_usable w)) as [usable | e | code] eqn:Husable;
    try (rewrite is_venv_usable_result in Husable; discriminate).
  rewrite (bind_returned _ _ _ Husable). unfold ends_only.
  cbn [result snd]. fold (@ends_only unit in_process_failure
                            (fun code => code = 1%Z)).
  destruct usable.
  - unfold create_venv. rewrite (usable_venv_available _ Husable).
    eapply ends_only_weaken; [| |apply builder_create_ends].
    + apply build_failure_in_process.
    + intros c [].
  - destruct (truthy (of_opt virtualenv_py)) eqn:Htruthy.
    + eapply ends_only_weaken;
        [| |apply create_virtualenv_supplied_ends; exact Htruthy].
      * auto.
      * intros c [].
    + reflexivity.
Qed.

(** X3.  An in-process creation ends in one of four ways only: it returns;
    it exits with status 1; a step of the library's builder fails; or a
    child cannot be started or, for the external tool, exits non-zero.  In
    particular the dispatcher never meets the unbound [_EnvBuilder] class
    nor a malformed argument vector, although [create_venv] called directly
    on a runtime without [venv] ends in [NameError]. *)
Theorem create_with_this_ways_to_end :
  forall (w : runtime) (env_dir : string) (system : bool)
         (prompt virtualenv_py : option string),
    ends_only in_process_failure (fun code => code = 1%Z)
      (_create_with_this w env_dir system prompt virtualenv_py)
    /\ (forall name,
          result (_create_with_this w env_dir system prompt virtualenv_py) <>
            Raised (NameError name))
    /\ result (_create_with_this w env_dir system prompt virtualenv_py) <>
         Raised TypeError
    /\ (venv_available w = true
        \/ create_venv w env_dir system prompt =
             ([], Raised (NameError "_EnvBuilder"))).
Proof.
  intros w env_dir system prompt virtualenv_py.
  pose proof (create_with_this_ends w env_dir system prompt virtualenv_py)
    as Hends.
  split; [exact Hends|].
  unfold ends_only in Hends.
  split; [|split].
  - intros name Hname. rewrite Hname in Hends. exact Hends.
  - intros Htype. rewrite Htype in Hends. exact Hends.
  - unfold create_venv. destruct (venv_available w); [now left | now right].
Qed.

Lemma create_in_process (w : runtime) (python : option string)
    (env_dir : string) (system : bool) (prompt virtualenv_py : option string) :
  names_this_interpreter w python = true ->
  create w python env_dir system prompt virtualenv_py =
    _create_with_this w env_dir system prompt virtualenv_py.
Proof. intros H. unfold create. now rewrite create_guard, H. Qed.

Lemma create_delegated (w : runtime) (python : option string)
    (env_dir : string) (system : bool) (prompt virtualenv_py : option string) :
  names_this_interpreter w python = false ->
  exists p,
    python = Some p
    /\ create w python env_dir system prompt virtualenv_py =
         _create_with_python w (Some p) env_dir system prompt virtualenv_py.
Proof.
  intros H. destruct python as [p|]; [|discriminate].
  exists p. split; [reflexivity|].
  unfold create. now rewrite create_guard, H.
Qed.


(** X5.  The exit statuses of [create].  It ends in [sys.exit(code)]
    exactly in two situations: in-process, with status 1, when the built-in
    builder is rejected and no tool path is given; or delegating, with the
    return code of the child that was started.  The built-in builder and
    the external tool never end a creation by an exit. *)
Theorem create_exit_status_iff :
  forall (w : runtime) (python : option string) (env_dir : string)
         (system : bool) (prompt virtualenv_py : option string) (code : Z),
    result (create w python env_dir system prompt virtualenv_py) = Exited code
    <-> (names_this_interpreter w python = true
         /\ result (_is_venv_usable w) = Returned false
         /\ truthy (of_opt virtualenv_py) = false
         /\ code = 1%Z)
        \/ (names_this_interpreter w python = false
            /\ exists p label,
                 python = Some p /\ prompt = Some label
                 /\ run_process w
                      (delegation_argv w p env_dir system label virtualenv_py)
                    = Some code).
Proof.
  intros w python env_dir system prompt virtualenv_py code.
  destruct (names_this_interpreter w python) eqn:Hsame.
  - rewrite create_in_process by assumption.
    destruct (result (_is_venv_usable w)) as [usable | e | c] eqn:Husable;
      try (rewrite is_venv_usable_result in Husable; discriminate).
    destruct usable.
    + rewrite (create_with_this_usable _ _ _ _ _ Husable). cbn [result snd].
      unfold create_venv. rewrite (usable_venv_available _ Husable).
      pose proof (builder_create_ends w
                    (create_venv_builder w system prompt) env_dir) as Hends.
      unfold ends_only in Hends. split.
      * intros H. rewrite H in Hends. destruct Hends.
      * intros [(_ & H & _) | (H & _)]; discriminate H.
    + rewrite (create_with_this_rejected _ _ _ _ _ Husable).
      destruct (truthy (of_opt virtualenv_py)) eqn:Htruthy; cbn [result snd].
      * pose proof (create_virtualenv_supplied_ends w virtualenv_py env_dir
                      system prompt Htruthy) as Hends.
        unfold ends_only in Hends. split.
        -- intros H. rewrite H in Hends. destruct Hends.
        -- intros [(_ & _ & H & _) | (H & _)]; discriminate H.
      * split.
        -- intros [= <-]. left. repeat split.
        -- intros [(_ & _ & _ & ->) | (H & _)]; [reflexivity | discriminate H].
  - destruct (create_delegated w python env_dir system prompt virtualenv_py
                Hsame) as (p & -> & ->).
    rewrite create_with_python_run.
    destruct prompt as [label|].
    + destruct (run_process w
                  (delegation_argv w p env_dir system label virtualenv_py))
        as [rc|] eqn:Hchild; cbn [result snd]; split.
      * intros [= <-]. right. split; [reflexivity|].
        exists p, label. repeat split. exact Hchild.
      * intros [(H & _) | (_ & p' & label' & [= <-] & [= <-] & Hcode)];
          [discriminate H|].
        rewrite Hchild in Hcode. now injection Hcode as ->.
      * discriminate.
      * intros [(H & _) | (_ & p' & label' & [= <-] & [= <-] & Hcode)];
          [discriminate H|].
        rewrite Hchild in Hcode. discriminate Hcode.
    + cbn [result snd]. split; [discriminate|].
      intros [(H & _) | (_ & p' & label' & _ & H & _)]; discriminate H.
Qed.

(** ** The delegation command *)

Lemma string_length_append (s t : string) :
  String.length (s ++ t) = String.length s + String.length t.
Proof. induction s as [| a s IH]; simpl; [reflexivity | now rewrite IH]. Qed.

Lemma substring_whole (t : string) : substring 0 (String.length t) t = t.
Proof. induction t as [| a t IH]; simpl; [reflexivity | now rewrite IH]. Qed.

Lemma substring_suffix (s t : string) :
  substring (String.length s) (String.length t) (s ++ t) = t.
Proof.
  induction s as [| a s IH]; simpl; [apply substring_whole | exact IH].
Qed.

Lemma endswith_append (s t : string) : endswith (s ++ t) t = true.
Proof.
  unfold endswith. rewrite string_length_append.
  replace (String.length s + String.length t - String.length t)
    with (String.length s) by lia.
  rewrite substring_suffix, String.eqb_refl, andb_true_r.
  apply Nat.leb_le. lia.
Qed.

(** X6.  A module file whose absolute path ends in [.pyc] is never passed
    on to the child: the command names the first character of the path
    alone, which is neither the path nor the path of the [.py] source.  A
    path that does not end in [.pyc] is passed on unchanged. *)
Theorem delegated_file_of_pyc :
  forall (w : runtime) (stem : string),
    abspath w (dunder_file w) = (stem ++ ".pyc")%string ->
    delegated_file w = slice_to 1 (stem ++ ".pyc")
    /\ String.length (delegated_file w) = 1
    /\ delegated_file w <> abspath w (dunder_file w)
    /\ delegated_file w <> (stem ++ ".py")%string
    /\ (forall w' : runtime,
          endswith (abspath w' (dunder_file w')) ".pyc" = true
          \/ delegated_file w' = abspath w' (dunder_file w')).
Proof.
  intros w stem Hfile.
  assert (Hcut : delegated_file w = slice_to 1 (stem ++ ".pyc")).
  { unfold delegated_file. now rewrite Hfile, endswith_append. }
  assert (Hlen : String.length (delegated_file w) = 1).
  { rewrite Hcut. unfold slice_to.
    destruct stem as [| a stem]; [reflexivity|].
    simpl. now destruct (stem ++ ".pyc")%string. }
  split; [exact Hcut|]. split; [exact Hlen|]. split; [|split].
  - intros Heq. rewrite Heq, Hfile, string_length_append in Hlen.
    simpl in Hlen. lia.
  - intros Heq. rewrite Heq, string_length_append in Hlen.
    simpl in Hlen. lia.
  - intros w'. unfold delegated_file.
    destruct (endswith (abspath w' (dunder_file w')) ".pyc");
      [now left | now right].
Qed.

Lemma delegated_file_of_pyc_witness :
  abspath legacy_runtime (dunder_file legacy_runtime) =
    ("/opt/tools/envcreate" ++ ".pyc")%string
  /\ delegated_file legacy_runtime = "/".
Proof.
  split; [reflexivity|].
  apply (delegated_file_of_pyc legacy_runtime "/opt/tools/envcreate" eq_refl).
Defined.

(** X7.  With [python] and [prompt] strings, the child of the delegation is
    started on exactly: the requested interpreter, the module file, the
    destination directory, [--prompt] and the prompt, then [--system] exactly
    when the system flag is set, then [--virtualenv.py] and the tool path
    exactly when a tool path is given.  The prompt is forwarded
    unconditionally, an empty one included, and whatever [python] and
    [prompt] are the command carries [--prompt] and the prompt in fourth and
    fifth place. *)
Theorem create_with_python_command :
  forall (w : runtime) (python : option string) (interpreter : string)
         (env_dir : string) (system : bool) (prompt : option string)
         (label : string) (virtualenv_py : option string),
    delegation_cmd w (Some interpreter) env_dir system (Some label)
      virtualenv_py =
      map PyStr
        ([interpreter; delegated_file w; env_dir; "--prompt"; label]
         ++ (if system then ["--system"] else [])
         ++ (if truthy (of_opt virtualenv_py)
             then ["--virtualenv.py"; py_str (of_opt virtualenv_py)]
             else []))
    /\ Forall (fun e => exists rc,
                 e = Spawn SelfDelegation
                       ([interpreter; delegated_file w; env_dir; "--prompt";
                         label]
                        ++ (if system then ["--system"] else [])
                        ++ (if truthy (of_opt virtualenv_py)
                            then ["--virtualenv.py";
                                  py_str (of_opt virtualenv_py)]
                            else [])) rc)
         (trace (_create_with_python w (Some interpreter) env_dir system
                   (Some label) virtualenv_py))
    /\ nth_error (delegation_cmd w python env_dir system prompt virtualenv_py)
         3 = Some (PyStr "--prompt")
    /\ nth_error (delegation_cmd w python env_dir system prompt virtualenv_py)
         4 = Some (of_opt prompt).
Proof.
  intros w python interpreter env_dir system prompt label virtualenv_py.
  assert (Hcmd : delegation_cmd w (Some interpreter) env_dir system
                   (Some label) virtualenv_py =
                 map PyStr
                   ([interpreter; delegated_file w; env_dir; "--prompt"; label]
                    ++ (if system then ["--system"] else [])
                    ++ (if truthy (of_opt virtualenv_py)
                        then ["--virtualenv.py"; py_str (of_opt virtualenv_py)]
                        else []))).
  { unfold delegation_cmd, delegated_file.
    destruct system, virtualenv_py as [v|]; simpl; try reflexivity;
      destruct (String.eqb v ""); reflexivity. }
  split; [exact Hcmd|]. split.
  - unfold _create_with_python.
    apply trace_bind_Forall; [|intros; simpl; constructor].
    eapply Forall_impl; [|apply subprocess_call_events].
    intros e (argv & rc & Hargv & ->).
    rewrite Hcmd, argv_of_strings in Hargv. injection Hargv as <-.
    now exists rc.
  - unfold delegation_cmd.
    destruct system, (truthy (of_opt virtualenv_py)); split; reflexivity.
Qed.

(** ** Children and build steps of a creation *)

Lemma children_app (t1 t2 : list event) :
  children (t1 ++ t2) = children t1 ++ children t2.
Proof.
  induction t1 as [| e t1 IH]; simpl; [reflexivity|].
  destruct e; simpl; now rewrite IH.
Qed.

(** The build before [post_setup], for a builder that bootstraps the
    installer and does not upgrade in place: it completes the library's
    steps up to the first that fails, starts no child, and ends in the
    failure of that step or hands on the context of the new environment. *)
Lemma build_before_post_setup_run (w : runtime) (b : builder)
    (env_dir : string) :
  truthy (b_with_pip b) = true ->
  truthy (b_upgrade b) = false ->
  builds (trace (build_before_post_setup w b env_dir)) =
    completed_steps w pipeline
  /\ children (trace (build_before_post_setup w b env_dir)) = []
  /\ match first_failure w pipeline with
     | Some msg =>
         result (build_before_post_setup w b env_dir) =
           Raised (BuilderError msg)
     | None =>
         exists c,
           result (build_before_post_setup w b env_dir) = Returned (Some c)
           /\ ctx_env_exe c = env_exe_of w (abspath w env_dir)
     end.
Proof.
  intros Hpip Hupgrade.
  unfold build_before_post_setup, _EnvBuilder.ensure_directories,
    EnvBuilder.ensure_directories, _EnvBuilder.setup_python,
    EnvBuilder.setup_python, library_step, pipeline.
  rewrite Hpip, Hupgrade. cbn [negb completed_steps first_failure].
  destruct (venv_step w EnsureDirectories); [repeat split|].
  destruct (venv_step w CreateConfiguration);
    [destruct (_ && _); repeat split|].
  destruct (venv_step w SetupPython); [destruct (_ && _); repeat split|].
  destruct (venv_step w SetupPip); [destruct (_ && _); repeat split|].
  destruct (venv_step w SetupScripts); [destruct (_ && _); repeat split|].
  destruct (_ && _); (split; [reflexivity|]); (split; [reflexivity|]);
    eexists; split; reflexivity.
Qed.

(** The run of the builder's [create], summed up: the steps it completes,
    the way it ends and the children it starts. *)
Lemma builder_create_summary (w : runtime) (b : builder) (env_dir : string) :
  truthy (b_with_pip b) = true ->
  truthy (b_upgrade b) = false ->
  builds (trace (_EnvBuilder.create w b env_dir)) = completed_steps w pipeline
  /\ match first_failure w pipeline with
     | Some msg =>
         result (_EnvBuilder.create w b env_dir) = Raised (BuilderError msg)
         /\ children (trace (_EnvBuilder.create w b env_dir)) = []
     | None =>
         match run_process w
                 (upgrade_argv (env_exe_of w (abspath w env_dir))) with
         | Some rc =>
             result (_EnvBuilder.create w b env_dir) = Returned tt
             /\ children (trace (_EnvBuilder.create w b env_dir)) =
                  [UpgradeStep]
         | None =>
             result (_EnvBuilder.create w b env_dir) = Raised OSError
             /\ children (trace (_EnvBuilder.create w b env_dir)) = []
         end
     end.
Proof.
  intros Hpip Hupgrade.
  rewrite builder_create_split, bind_unfold.
  destruct (build_before_post_setup_run w b env_dir Hpip Hupgrade)
    as (Hbuilds & Hchildren & Hresult).
  destruct (first_failure w pipeline) as [msg|].
  - rewrite Hresult. cbn [trace result fst snd]. repeat split; assumption.
  - destruct Hresult as (c & -> & Hexe).
    cbn [trace result fst snd call_post_setup].
    rewrite builds_app, children_app, Hbuilds, Hchildren, post_setup_run, Hexe.
    destruct (run_process w _) as [rc|]; cbn [trace result fst snd];
      repeat split; try reflexivity; apply app_nil_r.
Qed.

Lemma create_venv_children (w : runtime) (env_dir : string) (system : bool)
    (prompt : option string) :
  venv_available w = true ->
  children (trace (create_venv w env_dir system prompt)) = []
  \/ children (trace (create_venv w env_dir system prompt)) = [UpgradeStep].
Proof.
  intros Hvenv. unfold create_venv. rewrite Hvenv.
  destruct (builder_create_summary w (create_venv_builder w system prompt)
              env_dir) as [_ Hsummary];
    try (rewrite create_venv_builder_fields; reflexivity).
  destruct (first_failure w pipeline); [now left|].
  destruct (run_process w _); [now right | now left].
Qed.

Lemma is_venv_usable_returns (w : runtime) :
  result (_is_venv_usable w) = Returned (builder_usable w).
Proof. apply is_venv_usable_result. Qed.

Lemma is_venv_usable_children (w : runtime) :
  children (trace (_is_venv_usable w)) = [].
Proof. now rewrite is_venv_usable_run. Qed.

Lemma create_virtualenv_children (w : runtime) (virtualenv_py : option string)
    (env_dir : string) (system : bool) (prompt : option string) :
  builds (trace (create_virtualenv w virtualenv_py env_dir system prompt)) = []
  /\ (children (trace (create_virtualenv w virtualenv_py env_dir system
                         prompt)) = []
      \/ children (trace (create_virtualenv w virtualenv_py env_dir system
                            prompt)) = [ExternalTool]).
Proof.
  rewrite create_virtualenv_run.
  destruct (truthy (of_opt virtualenv_py)); [|split; [reflexivity | now left]].
  destruct (tool_exit_code w virtualenv_py env_dir system prompt);
    (split; [reflexivity|]); [now right | now left].
Qed.

Lemma create_with_python_children (w : runtime) (python : option string)
    (env_dir : string) (system : bool) (prompt virtualenv_py : option string) :
  builds (trace (_create_with_python w python env_dir system prompt
                   virtualenv_py)) = []
  /\ (children (trace (_create_with_python w python env_dir system prompt
                         virtualenv_py)) = []
      \/ children (trace (_create_with_python w python env_dir system prompt
                            virtualenv_py)) = [SelfDelegation]).
Proof.
  rewrite create_with_python_run.
  destruct python as [p|]; [|split; [reflexivity | now left]].
  destruct prompt as [label|]; [|split; [reflexivity | now left]].
  destruct (run_process w _); (split; [reflexivity|]);
    [now right | now left].
Qed.

(** X9.  A creation takes one route.  Of the three subprocess calls of the
    module, every run of [create] makes at most one that starts a child, and
    it is the call of the route taken: the upgrade when the built-in builder
    is selected, the external tool when it is rejected, the re-invocation
    when another interpreter is named.  Steps of the library's builder occur
    on the built-in route only, and on that route the tool path is not
    looked at. *)
Theorem create_takes_one_route :
  forall (w : runtime) (python : option string) (env_dir : string)
         (system : bool) (prompt virtualenv_py : option string),
    (children (trace (create w python env_dir system prompt virtualenv_py)) = []
     \/ children (trace (create w python env_dir system prompt virtualenv_py)) =
          [route_site w python])
    /\ (route_site w python = UpgradeStep
        \/ builds (trace (create w python env_dir system prompt
                            virtualenv_py)) = [])
    /\ (builder_usable w = false
        \/ _create_with_this w env_dir system prompt virtualenv_py =
             _create_with_this w env_dir system prompt None).
Proof.
  intros w python env_dir system prompt virtualenv_py.
  pose proof (is_venv_usable_returns w) as Husable.
  unfold route_site.
  split; [|split].
  - destruct (names_this_interpreter w python) eqn:Hsame.
    + rewrite create_in_process by assumption.
      destruct (builder_usable w) eqn:Hb.
      * rewrite (create_with_this_usable _ _ _ _ _ Husable).
        cbn [trace fst]. rewrite children_app, is_venv_usable_children.
        apply create_venv_children, (usable_venv_available _ Husable).
      * rewrite (create_with_this_rejected _ _ _ _ _ Husable).
        destruct (truthy (of_opt virtualenv_py)); cbn [trace fst];
          rewrite children_app, is_venv_usable_children.
        -- apply create_virtualenv_children.
        -- now left.
    + destruct (create_delegated w python env_dir system prompt virtualenv_py
                  Hsame) as (p & -> & ->).
      apply create_with_python_children.
  - destruct (names_this_interpreter w python) eqn:Hsame.
    + rewrite create_in_process by assumption.
      destruct (builder_usable w) eqn:Hb; [now left | right].
      rewrite (create_with_this_rejected _ _ _ _ _ Husable).
      destruct (truthy (of_opt virtualenv_py)); cbn [trace fst];
        rewrite builds_app, is_venv_usable_builds.
      * apply create_virtualenv_children.
      * reflexivity.
    + right.
      destruct (create_delegated w python env_dir system prompt virtualenv_py
                  Hsame) as (p & -> & ->).
      apply create_with_python_children.
  - destruct (builder_usable w) eqn:Hb; [right | now left].
    now rewrite !(create_with_this_usable _ _ _ _ _ Husable).
Qed.

(** ** The events of a build *)

Lemma trace_bind_Forall_result {A B} (P : event -> Prop) (m : run A)
    (k : A -> run B) :
  Forall P (trace m) ->
  (forall a, result m = Returned a -> Forall P (trace (k a))) ->
  Forall P (trace (bind m k)).
Proof.
  intros Hm Hk. rewrite bind_unfold.
  destruct (result m) as [a | e | c] eqn:Hresult; simpl; auto.
  apply Forall_app; split; auto.
Qed.

Lemma ensure_directories_context (w : runtime) (b : builder)
    (env_dir : string) (c : context) :
  result (_EnvBuilder.ensure_directories w b env_dir) = Returned c ->
  ctx_env_dir c = env_dir /\ ctx_env_exe c = env_exe_of w env_dir.
Proof.
  unfold _EnvBuilder.ensure_directories, EnvBuilder.ensure_directories,
    library_step.
  destruct (venv_step w EnsureDirectories); [discriminate|].
  destruct (_ && _); simpl; intros [= <-]; split; reflexivity.
Qed.

Lemma library_step_hook_event (w : runtime) (s : builder_step) (b : builder)
    (env_dir exe : string) :
  Forall (hook_event exe) (trace (library_step w s b env_dir)).
Proof.
  unfold library_step. destruct (venv_step w s); simpl; repeat constructor.
Qed.

Lemma post_setup_hook_event (w : runtime) (c : context) :
  Forall (hook_event (ctx_env_exe c)) (trace (_EnvBuilder.post_setup w c)).
Proof.
  rewrite post_setup_run.
  destruct (run_process w _) as [rc|]; cbn [trace fst].
  - constructor; [simpl; auto|].
    constructor; [simpl; auto|].
    constructor; [|constructor].
    destruct (Z.eqb rc 0); simpl; auto 6.
  - constructor; [simpl; auto | constructor].
Qed.

(** X10.  What the hooks of the module add to a build concerns one
    interpreter.  In every run of the builder's [create], the line printed
    by [setup_python] names the interpreter of the context, every child
    started by [post_setup] is the pip upgrade run by that same interpreter,
    and the hooks print nothing but that line and the progress of the
    upgrade: the interpreter announced is the one upgraded. *)
Theorem hooks_share_the_interpreter :
  forall (w : runtime) (b : builder) (env_dir : string),
    Forall (hook_event (env_exe_of w (abspath w env_dir)))
      (trace (_EnvBuilder.create w b env_dir)).
Proof.
  intros w b env_dir. unfold _EnvBuilder.create. cbv zeta.
  apply trace_bind_Forall_result.
  - unfold _EnvBuilder.ensure_directories, EnvBuilder.ensure_directories.
    cbv zeta.
    apply trace_bind_Forall.
    + apply trace_bind_Forall; [apply library_step_hook_event|].
      intros _. simpl. constructor.
    + intros c. destruct (_ && _); simpl; constructor.
  - intros c Hc.
    destruct (ensure_directories_context _ _ _ _ Hc) as [_ Hexe].
    apply trace_bind_Forall; [apply library_step_hook_event|]. intros _.
    apply trace_bind_Forall.
    + unfold _EnvBuilder.setup_python, EnvBuilder.setup_python.
      rewrite Hexe.
      apply trace_bind_Forall; [apply library_step_hook_event|]. intros _.
      constructor; [left; reflexivity | constructor].
    + intros _. apply trace_bind_Forall.
      * destruct (truthy (b_with_pip b));
          [apply library_step_hook_event | simpl; constructor].
      * intros _. destruct (negb (truthy (b_upgrade b)));
          [|simpl; constructor].
        apply trace_bind_Forall; [apply library_step_hook_event|]. intros _.
        rewrite <- Hexe. apply post_setup_hook_event.
Qed.

(** ** What is reported, and by whom *)

(** X11.  The mechanism chosen is reported before anything else is done:
    every run of [_create_with_this] begins with the line of the selection
    procedure.  The other two routines print nothing themselves: no text
    comes from [create_virtualenv] or from the delegating
    [_create_with_python]; whatever appears is the child's own output. *)
Theorem selection_is_reported_first :
  forall (w : runtime) (python : option string) (env_dir : string)
         (system : bool) (prompt virtualenv_py : option string),
    (exists rest,
        trace (_create_with_this w env_dir system prompt virtualenv_py) =
          Stdout (verdict_line (version_info w)
                    (spec_selection (venv_available w) (ensurepip_available w)
                       (has_real_prefix w)) ++ nl) :: rest)
    /\ Forall (fun e => is_stdout e = false)
         (trace (create_virtualenv w virtualenv_py env_dir system prompt))
    /\ Forall (fun e => is_stdout e = false)
         (trace (_create_with_python w python env_dir system prompt
                   virtualenv_py)).
Proof.
  intros w python env_dir system prompt virtualenv_py.
  split; [|split].
  - unfold _create_with_this.
    rewrite (bind_returned _ _ _ (is_venv_usable_returns w)).
    rewrite is_venv_usable_run. cbn [trace fst app].
    eexists. reflexivity.
  - rewrite create_virtualenv_run.
    destruct (truthy (of_opt virtualenv_py)); [|constructor].
    destruct (tool_exit_code w virtualenv_py env_dir system prompt);
      repeat constructor.
  - rewrite create_with_python_run.
    destruct python as [p|]; [|constructor].
    destruct prompt as [label|]; [|constructor].
    destruct (run_process w _); repeat constructor.
Qed.

(** X12.  The entry point of the delegated child, [_main], always builds
    in-process: it runs as [create] does when no interpreter or the running
    one is named, it never starts a re-invocation of its own, so a
    delegation is one level deep, and it ends as an in-process creation
    ends. *)
Theorem main_builds_in_process :
  forall (w : runtime) (opts : options),
    _main w opts =
      create w None (opt_env_dir opts) (opt_system opts) (opt_prompt opts)
        (opt_script opts)
    /\ _main w opts =
         create w (Some (sys_executable w)) (opt_env_dir opts)
           (opt_system opts) (opt_prompt opts) (opt_script opts)
    /\ Forall (fun e => is_self_delegation e = false) (trace (_main w opts))
    /\ ends_only in_process_failure (fun code => code = 1%Z) (_main w opts).
Proof.
  intros w opts. unfold _main.
  split; [now rewrite create_in_process|].
  split.
  - rewrite create_in_process; [reflexivity|].
    simpl. now rewrite String.eqb_refl, orb_true_r.
  - split; [apply create_with_this_not_delegating|apply create_with_this_ends].
Qed.

(** X13.  When a creation succeeds.  [create] returns normally exactly when
    it builds in-process and either the built-in builder is selected, no
    step of the library fails and the upgrade child can be started
    (whatever that child returns), or the builder is rejected and the
    external tool's child runs and exits with code 0. *)
Theorem create_returns_iff :
  forall (w : runtime) (python : option string) (env_dir : string)
         (system : bool) (prompt virtualenv_py : option string),
    returned (result (create w python env_dir system prompt virtualenv_py)) =
      true
    <-> names_this_interpreter w python = true
        /\ ((builder_usable w = true
             /\ first_failure w pipeline = None
             /\ run_process w
                  (upgrade_argv (env_exe_of w (abspath w env_dir))) <> None)
            \/ (builder_usable w = false
                /\ tool_exit_code w virtualenv_py env_dir system prompt =
                     Some 0%Z)).
Proof.
  intros w python env_dir system prompt virtualenv_py.
  pose proof (is_venv_usable_returns w) as Husable.
  destruct (names_this_interpreter w python) eqn:Hsame.
  - rewrite create_in_process by assumption.
    destruct (builder_usable w) eqn:Hb.
    + rewrite (create_with_this_usable _ _ _ _ _ Husable). cbn [result snd].
      unfold create_venv. rewrite (usable_venv_available _ Husable).
      destruct (builder_create_summary w (create_venv_builder w system prompt)
                  env_dir) as [_ Hsummary];
        try (rewrite create_venv_builder_fields; reflexivity).
      destruct (first_failure w pipeline) as [msg|].
      * destruct Hsummary as [-> _]. simpl. split; [discriminate|].
        intros [_ [(_ & H & _) | (H & _)]]; discriminate H.
      * destruct (run_process w _) as [rc|]; destruct Hsummary as [-> _];
          simpl; split.
        -- intros _. split; [reflexivity|]. left.
           repeat split. discriminate.
        -- reflexivity.
        -- discriminate.
        -- intros [_ [(_ & _ & H) | (H & _)]];
             [now contradiction H | discriminate H].
    + rewrite (create_with_this_rejected _ _ _ _ _ Husable).
      destruct (truthy (of_opt virtualenv_py)) eqn:Htruthy; cbn [result snd].
      * rewrite create_virtualenv_run, Htruthy.
        destruct (tool_exit_code w virtualenv_py env_dir system prompt)
          as [rc|]; cbn [result snd].
        -- destruct (Z.eqb_spec rc 0) as [-> | Hrc]; simpl; split.
           ++ intros _. split; [reflexivity|]. now right.
           ++ reflexivity.
           ++ discriminate.
           ++ intros [_ [(H & _) | (_ & [= H])]];
                [discriminate H | contradiction].
        -- simpl. split; [discriminate|].
           intros [_ [(H & _) | (_ & H)]]; discriminate H.
      * simpl. split; [discriminate|].
        intros [_ [(H & _) | (_ & H)]]; [discriminate H|].
        unfold tool_exit_code in H. rewrite Htruthy in H. discriminate H.
  - destruct (create_delegated w python env_dir system prompt virtualenv_py
                Hsame) as (p & -> & ->).
    rewrite create_with_python_run. split.
    + destruct prompt as [label|]; [|discriminate].
      destruct (run_process w _); discriminate.
    + intros [H _]. discriminate H.
Qed.
